(** * YT_Scraper: the scraper interface of [main.py]

    A shallow embedding of [YouTubeScraperInterface] and [main] and the
    properties of its session handling, input resolution and exit codes.

    The extraction engine ([yt_data_extractor.AdvancedYouTubeExtractor]) is an
    external collaborator: it is a parameter of the development, a record of
    operations over an abstract engine state, each of which may return or
    raise.  Every call the interface makes is logged in a trace, so that
    "is invoked exactly once" and "is never invoked" are statements about
    that trace.

    Conventions of the model: [print] does not fail; an extractor object is
    true in a boolean test; [await] is sequential composition (one coroutine
    runs at a time); an interrupt shows as [KeyboardInterrupt] raised by the
    operation it arrives in. *)

From Stdlib Require Import List ZArith NArith Arith Lia Bool String Ascii.
From Stdlib Require DecimalString.
Import ListNotations.

Set Implicit Arguments.

(** ** Python strings *)

Module PyStr.

(** A Python [str] is a sequence of Unicode code points. *)
Definition str := list N.

Local Open Scope N_scope.

(** An ASCII literal of the source. *)
Definition lit (s : string) : str := map N_of_ascii (list_ascii_of_string s).

Definition eqb (a b : str) : bool :=
  if list_eq_dec N.eq_dec a b then true else false.

(** [str.isspace] on one code point: the characters [str.strip()] removes
    (CPython's [_PyUnicode_IsWhitespace]). *)
Definition isspace (c : N) : bool :=
  ((9 <=? c) && (c <=? 13)) || ((28 <=? c) && (c <=? 32))
  || (c =? 133) || (c =? 160) || (c =? 5760)
  || ((8192 <=? c) && (c <=? 8202))
  || (c =? 8232) || (c =? 8233) || (c =? 8239) || (c =? 8287)
  || (c =? 12288).

(** [s.lstrip()] *)
Fixpoint lstrip (s : str) : str :=
  match s with
  | c :: s' => if isspace c then lstrip s' else s
  | [] => []
  end.

(** [s.rstrip()] *)
Definition rstrip (s : str) : str := rev (lstrip (rev s)).

(** [s.strip()] *)
Definition strip (s : str) : str := rstrip (lstrip s).

(** [s.startswith(p)] *)
Fixpoint startswith (s p : str) : bool :=
  match p, s with
  | [], _ => true
  | _ :: _, [] => false
  | a :: p', b :: s' => (a =? b) && startswith s' p'
  end.

(** Truth value of a string: non-empty. *)
Definition truthy (s : str) : bool :=
  match s with [] => false | _ :: _ => true end.

(** [s.split(sep)] for a one-character separator. *)
Fixpoint split_aux (sep : N) (cur : str) (s : str) : list str :=
  match s with
  | [] => [rev cur]
  | c :: s' =>
      if c =? sep then rev cur :: split_aux sep [] s'
      else split_aux sep (c :: cur) s'
  end.

Definition split (sep : N) (s : str) : list str := split_aux sep [] s.

(** [str(n)] for a length, and for an integer. *)
Definition of_nat (n : nat) : str := lit (DecimalString.NilZero.string_of_uint (Nat.to_uint n)).
Definition of_Z (z : Z) : str := lit (DecimalString.NilZero.string_of_int (Z.to_int z)).

End PyStr.

Arguments PyStr.lit : simpl never.
Arguments PyStr.of_nat : simpl never.
Arguments PyStr.of_Z : simpl never.
Arguments PyStr.strip : simpl never.

Import PyStr.

(** The code points of the pictographs the messages start with. *)
Definition cross_mark : N := 10060%N.     (* U+274C *)
Definition check_mark : N := 9989%N.      (* U+2705 *)
Definition direct_hit : N := 127919%N.    (* U+1F3AF *)
Definition page_up : N := 128196%N.       (* U+1F4C4 *)
Definition fire : N := 128293%N.          (* U+1F525 *)
Definition waving_hand : N := 128075%N.   (* U+1F44B *)
Definition newline : N := 10%N.
Definition comma : N := 44%N.

(** ** Values, records, exceptions *)

(** The values a field of an extracted record holds, as far as the interface
    looks at them: it tests the [error] field for truth and prints it. *)
Inductive pyval :=
| PyNone
| PyBool (b : bool)
| PyInt (z : Z)
| PyStr (s : str).

Definition truthy (v : pyval) : bool :=
  match v with
  | PyNone => false
  | PyBool b => b
  | PyInt z => negb (z =? 0)%Z
  | PyStr s => PyStr.truthy s
  end.

(** [sys.int_max_str_digits], at its default: [str()] of an integer with
    more decimal digits raises [ValueError]. *)
Definition int_max_str_digits : Z := 4300.

Definition int_str_limit_message : str :=
  lit "Exceeds the limit (4300 digits) for integer string conversion; use sys.set_int_max_str_digits() to increase the limit".

(** A record is a [dict] with string keys, in insertion order. *)
Definition record := list (str * pyval).

Fixpoint lookup (k : str) (d : record) : option pyval :=
  match d with
  | [] => None
  | (k', v) :: d' => if PyStr.eqb k k' then Some v else lookup k d'
  end.

(** [d.get(k)]: [None] when the key is absent. *)
Definition dict_get (d : record) (k : str) : pyval :=
  match lookup k d with Some v => v | None => PyNone end.

(** The exceptions the source tells apart: [except Exception] catches the
    first kind only; [KeyboardInterrupt] and [SystemExit] derive from
    [BaseException] and pass through it.  An [Exception] carries its
    [str(e)]. *)
Inductive exn :=
| Exception (msg : str)
| KeyboardInterrupt
| SystemExit (code : Z).

Inductive result (A : Type) :=
| Return (a : A)
| Raise (e : exn).
Arguments Return {A} a.
Arguments Raise {A} e.

(** [str(v)], as an f-string renders the value.  It raises for an integer
    beyond the digit limit. *)
Definition str_of (v : pyval) : result str :=
  match v with
  | PyNone => Return (lit "None")
  | PyBool true => Return (lit "True")
  | PyBool false => Return (lit "False")
  | PyInt z =>
      if (Z.abs z <? 10 ^ int_max_str_digits)%Z then Return (of_Z z)
      else Raise (Exception int_str_limit_message)
  | PyStr s => Return s
  end.

(** ** The world the interface runs in *)

(** An extractor object is known by its handle. *)
Definition handle := nat.

(** What [os.path.exists] and [open(...).readlines()] find at a path: nothing,
    a file that cannot be opened or decoded, or the lines of a file (each with
    its line terminator, as [readlines] returns them). *)
Inductive file :=
| Absent
| Unreadable (msg : str)
| Lines (ls : list str).

(** What [input()] meets on the terminal: a line, or the user's interrupt.
    An exhausted terminal raises [EOFError]. *)
Inductive keyboard :=
| Line (s : str)
| CtrlC.

(** The calls of the interface to the outside, in the order they are made. *)
Inductive event :=
| Print (line : str)
| PrintHelp
| Input (prompt : str)
| Construct (headless anti_detection : bool)
| Start (h : handle)
| Extract (h : handle) (url : str)
| Save (h : handle) (results : list record) (output_file : str)
| ExtractAndSave (h : handle) (urls : list str) (output_file : str)
| Stop (h : handle).

(** The handles [stop()] was called on, in order. *)
Fixpoint stops (t : list event) : list handle :=
  match t with
  | [] => []
  | Stop h :: t' => h :: stops t'
  | _ :: t' => stops t'
  end.

(** The handles [start()] was called on. *)
Fixpoint starts (t : list event) : list handle :=
  match t with
  | [] => []
  | Start h :: t' => h :: starts t'
  | _ :: t' => starts t'
  end.

(** The number of extractor constructions. *)
Fixpoint constructions (t : list event) : nat :=
  match t with
  | [] => 0
  | Construct _ _ :: t' => S (constructions t')
  | _ :: t' => constructions t'
  end.

(** What the output writer [save_clean_final_output] was handed. *)
Fixpoint saves (t : list event) : list (list record * str) :=
  match t with
  | [] => []
  | Save _ rs o :: t' => (rs, o) :: saves t'
  | _ :: t' => saves t'
  end.

(** The targets [extract_youtube_data] was called on. *)
Fixpoint extracts (t : list event) : list str :=
  match t with
  | [] => []
  | Extract _ url :: t' => url :: extracts t'
  | _ :: t' => extracts t'
  end.

(** A session is running after a trace when it was started in it and not
    stopped afterwards. *)
Fixpoint running (h : handle) (t : list event) : bool :=
  match t with
  | [] => false
  | Start h' :: t' =>
      if Nat.eqb h h' then negb (existsb (Nat.eqb h) (stops t')) || running h t'
      else running h t'
  | _ :: t' => running h t'
  end.

(** The object [YouTubeScraperInterface]: its two settings and the extractor
    of the last call ([None] after [__init__]). *)
Record YouTubeScraperInterface := {
  headless : bool;
  enable_anti_detection : bool;
  extractor : option handle
}.

Definition __init__ (headless enable_anti_detection : bool) : YouTubeScraperInterface :=
  {| headless := headless;
     enable_anti_detection := enable_anti_detection;
     extractor := None |}.

Section Model.

(** The state of the extraction engine (browser, pages, disk). *)
Variable W : Type.

(** [AdvancedYouTubeExtractor]: its constructor and the methods [main.py]
    calls, each a transition of the engine state that returns or raises. *)
Record Engine := {
  AdvancedYouTubeExtractor : bool -> bool -> W -> result handle * W;
  start : handle -> W -> result unit * W;
  extract_youtube_data : handle -> str -> W -> result record * W;
  save_clean_final_output : handle -> list record -> str -> W -> result unit * W;
  extract_and_save_clean_data_from_urls :
    handle -> list str -> str -> W -> result unit * W;
  stop : handle -> W -> result unit * W
}.

Record State := {
  self : YouTubeScraperInterface;
  engine : W;
  files : str -> file;
  stdin : list keyboard
}.

Definition set_self (o : YouTubeScraperInterface) (s : State) : State :=
  {| self := o; engine := engine s; files := files s; stdin := stdin s |}.

Definition set_engine (w : W) (s : State) : State :=
  {| self := self s; engine := w; files := files s; stdin := stdin s |}.

Definition set_stdin (k : list keyboard) (s : State) : State :=
  {| self := self s; engine := engine s; files := files s; stdin := k |}.

(** *** Computations: state, exceptions and the trace of calls *)

Record Run (A : Type) := {
  value : result A;
  after : State;
  events : list event
}.

Definition M (A : Type) := State -> Run A.

Definition ret {A} (a : A) : M A :=
  fun s => {| value := Return a; after := s; events := [] |}.

Definition raise {A} (e : exn) : M A :=
  fun s => {| value := Raise e; after := s; events := [] |}.

(** The events of a computation that ran after the events [t]. *)
Definition prepend {A} (t : list event) (r : Run A) : Run A :=
  match r with
  | {| value := v; after := s; events := t' |} =>
      {| value := v; after := s; events := t ++ t' |}
  end.

Definition bind {A B} (c : M A) (k : A -> M B) : M B :=
  fun s =>
    match c s with
    | {| value := Return a; after := s'; events := t |} => prepend t (k a s')
    | {| value := Raise e; after := s'; events := t |} =>
        {| value := Raise e; after := s'; events := t |}
    end.

(** [try: body except Exception as e: handler(str(e))] *)
Definition try_except {A} (body : M A) (handler : str -> M A) : M A :=
  fun s =>
    match body s with
    | {| value := Raise (Exception msg); after := s'; events := t |} =>
        prepend t (handler msg s')
    | r => r
    end.

(** [try: body finally: cleanup]: the cleanup runs on every way out of the
    body; when it raises, its exception replaces the body's outcome. *)
Definition try_finally {A} (body : M A) (cleanup : M unit) : M A :=
  fun s =>
    match body s with
    | {| value := v; after := s'; events := t |} =>
        match cleanup s' with
        | {| value := Return _; after := s''; events := t' |} =>
            {| value := v; after := s''; events := t ++ t' |}
        | {| value := Raise e; after := s''; events := t' |} =>
            {| value := Raise e; after := s''; events := t ++ t' |}
        end
    end.

Definition emit (ev : event) : M unit :=
  fun s => {| value := Return tt; after := s; events := [ev] |}.

(** A call into the engine, logged before it runs. *)
Definition call {A} (ev : event) (op : W -> result A * W) : M A :=
  fun s =>
    let (r, w) := op (engine s) in
    {| value := r; after := set_engine w s; events := [ev] |}.

Definition get_self : M YouTubeScraperInterface :=
  fun s => {| value := Return (self s); after := s; events := [] |}.

(** An expression that has a value or raises, without an effect. *)
Definition evaluate {A} (o : result A) : M A :=
  fun s => {| value := o; after := s; events := [] |}.

End Model.

Arguments ret {W A} a.
Arguments raise {W A} e.
Arguments emit {W} ev.
Arguments get_self {W}.
Arguments evaluate {W A} o.

Declare Scope py_scope.
Delimit Scope py_scope with py.
Notation "x <- c ;; k" := (bind c (fun x => k))
  (at level 61, c at next level, right associativity) : py_scope.
Notation "c ;; k" := (bind c (fun _ => k))
  (at level 61, right associativity) : py_scope.
Local Open Scope py_scope.

(** ** [class YouTubeScraperInterface] *)

Section Scraper.

Variable W : Type.
Variable E : Engine W.

Definition print (line : str) : M W unit := emit (Print line).

(** [self.extractor = h] *)
Definition assign_extractor (h : handle) : M W unit :=
  fun s =>
    {| value := Return tt;
       after := set_self {| headless := headless (self s);
                            enable_anti_detection := enable_anti_detection (self s);
                            extractor := Some h |} s;
       events := [] |}.

(** [self.extractor.<method>]: the attribute access fails on [None]. *)
Definition self_extractor (method : string) : M W handle :=
  fun s =>
    match extractor (self s) with
    | Some h => ret h s
    | None =>
        raise (Exception (lit "'NoneType' object has no attribute '"
                            ++ lit method ++ lit "'")) s
    end.

(** [if self.extractor: await self.extractor.stop()] *)
Definition cleanup : M W unit :=
  fun s =>
    match extractor (self s) with
    | Some h => call (Stop h) (stop E h) s
    | None => ret tt s
    end.

Definition scrape_single_url (url output_file : str) : M W bool :=
  print ([direct_hit] ++ lit " Scraping single URL: " ++ url) ;;
  try_finally
    (try_except
       (this <- get_self ;;
        h <- call (Construct (headless this) (enable_anti_detection this))
               (AdvancedYouTubeExtractor E (headless this) (enable_anti_detection this)) ;;
        assign_extractor h ;;
        x <- self_extractor "start" ;;
        call (Start x) (start E x) ;;
        x <- self_extractor "extract_youtube_data" ;;
        data <- call (Extract x url) (extract_youtube_data E x url) ;;
        if truthy (dict_get data (lit "error")) then
          shown <- evaluate (str_of (dict_get data (lit "error"))) ;;
          print ([cross_mark] ++ lit " Failed to extract data: " ++ shown) ;;
          ret false
        else
          x <- self_extractor "save_clean_final_output" ;;
          call (Save x [data] output_file)
            (save_clean_final_output E x [data] output_file) ;;
          print ([check_mark] ++ lit " Successfully scraped and saved to "
                   ++ output_file) ;;
          ret true)
       (fun e =>
          print ([cross_mark] ++ lit " Error scraping URL: " ++ e) ;;
          ret false))
    cleanup.

Definition scrape_multiple_urls (urls : list str) (output_file : str) : M W bool :=
  print ([direct_hit] ++ lit " Scraping " ++ of_nat (List.length urls) ++ lit " URLs...") ;;
  try_finally
    (try_except
       (this <- get_self ;;
        h <- call (Construct (headless this) (enable_anti_detection this))
               (AdvancedYouTubeExtractor E (headless this) (enable_anti_detection this)) ;;
        assign_extractor h ;;
        x <- self_extractor "start" ;;
        call (Start x) (start E x) ;;
        x <- self_extractor "extract_and_save_clean_data_from_urls" ;;
        call (ExtractAndSave x urls output_file)
          (extract_and_save_clean_data_from_urls E x urls output_file) ;;
        print ([check_mark] ++ lit " Successfully scraped " ++ of_nat (List.length urls)
                 ++ lit " URLs and saved to " ++ output_file) ;;
        ret true)
       (fun e =>
          print ([cross_mark] ++ lit " Error scraping URLs: " ++ e) ;;
          ret false))
    cleanup.

(** [os.path.exists(file_path)] *)
Definition os_path_exists (file_path : str) : M W bool :=
  fun s => ret (match files s file_path with Absent => false | _ => true end) s.

(** [open(file_path, 'r', encoding='utf-8')] and [f.readlines()] *)
Definition readlines (file_path : str) : M W (list str) :=
  fun s =>
    match files s file_path with
    | Lines ls => ret ls s
    | Unreadable msg => raise (Exception msg) s
    | Absent =>
        raise (Exception (lit "[Errno 2] No such file or directory: '"
                            ++ file_path ++ lit "'")) s
    end.

(** [[line.strip() for line in lines
      if line.strip() and line.strip().startswith('http')]] *)
Definition read_urls (lines : list str) : list str :=
  map strip
    (filter (fun line => PyStr.truthy (strip line)
                         && startswith (strip line) (lit "http")) lines).

Definition scrape_from_file (file_path output_file : str) : M W bool :=
  try_except
    (found <- os_path_exists file_path ;;
     if negb found then
       print ([cross_mark] ++ lit " File not found: " ++ file_path) ;;
       ret false
     else
       lines <- readlines file_path ;;
       let urls := read_urls lines in
       match urls with
       | [] =>
           print ([cross_mark] ++ lit " No valid YouTube URLs found in " ++ file_path) ;;
           ret false
       | _ :: _ =>
           print ([page_up] ++ lit " Found " ++ of_nat (List.length urls)
                    ++ lit " URLs in " ++ file_path) ;;
           scrape_multiple_urls urls output_file
       end)
    (fun e =>
       print ([cross_mark] ++ lit " Error reading file: " ++ e) ;;
       ret false).

End Scraper.

(** ** Interactive mode and [main] *)

Section Main.

Variable W : Type.
Variable E : Engine W.

(** [input(prompt)] *)
Definition input (prompt : str) : M W str :=
  fun s =>
    match stdin s with
    | Line l :: k =>
        {| value := Return l; after := set_stdin k s; events := [Input prompt] |}
    | CtrlC :: k =>
        {| value := Raise KeyboardInterrupt; after := set_stdin k s;
           events := [Input prompt] |}
    | [] =>
        {| value := Raise (Exception (lit "EOF when reading a line")); after := s;
           events := [Input prompt] |}
    end.

(** [s or default] *)
Definition or_default (s default : str) : str :=
  if PyStr.truthy s then s else default.

(** [[url.strip() for url in text.split(',') if url.strip()]] *)
Definition split_urls (text : str) : list str :=
  map strip (filter (fun url => PyStr.truthy (strip url)) (split comma text)).

Definition output_prompt : str := lit "Output file name (press Enter for default): ".

Inductive loop_step := Continue | Break.

(** The [if choice == '1': ... elif ... else: ...] of a turn. *)
Definition dispatch (choice : str) : M W loop_step :=
  if PyStr.eqb choice (lit "1") then
    line <- input (lit "Enter YouTube URL: ") ;;
    let url := strip line in
    if PyStr.truthy url then
      line <- input output_prompt ;;
      let output := or_default (strip line) (lit "youtube_data.json") in
      scrape_single_url E url output ;;
      ret Continue
    else ret Continue
  else if PyStr.eqb choice (lit "2") then
    line <- input (lit "Enter URLs (comma-separated): ") ;;
    let urls_input := strip line in
    if PyStr.truthy urls_input then
      let urls := split_urls urls_input in
      line <- input output_prompt ;;
      let output := or_default (strip line) (lit "youtube_batch_data.json") in
      scrape_multiple_urls E urls output ;;
      ret Continue
    else ret Continue
  else if PyStr.eqb choice (lit "3") then
    line <- input (lit "Enter file path: ") ;;
    let file_path := strip line in
    if PyStr.truthy file_path then
      line <- input output_prompt ;;
      let output := or_default (strip line) (lit "youtube_file_data.json") in
      scrape_from_file E file_path output ;;
      ret Continue
    else ret Continue
  else if PyStr.eqb choice (lit "4") then
    print ([waving_hand] ++ lit " Goodbye!") ;;
    ret Break
  else
    print ([cross_mark] ++ lit " Invalid choice. Please enter 1-4.") ;;
    ret Continue.

(** One turn of the [while True] loop of [interactive_mode]: the menu, the
    choice, and what the choice asks for. *)
Definition interactive_turn : M W loop_step :=
  print ([newline] ++ lit "Options:") ;;
  print (lit "1. Scrape single URL") ;;
  print (lit "2. Scrape multiple URLs (comma-separated)") ;;
  print (lit "3. Scrape from file") ;;
  print (lit "4. Exit") ;;
  line <- input ([newline] ++ lit "Enter your choice (1-4): ") ;;
  let choice := strip line in
  dispatch choice.

(** The loop, bounded by the number of turns: every turn reads the terminal
    at least once, so a terminal of [n] entries allows at most [n + 1] turns
    (see [interactive_loop_fuel]). *)
Fixpoint interactive_loop (turns : nat) : M W unit :=
  match turns with
  | O => raise (Exception (lit "EOF when reading a line"))
  | S n =>
      t <- interactive_turn ;;
      match t with
      | Continue => interactive_loop n
      | Break => ret tt
      end
  end.

Definition interactive_mode : M W unit :=
  print ([fire] ++ lit " YouTube Scraper - Interactive Mode") ;;
  print (repeat 61%N 50) ;;
  fun s => interactive_loop (S (List.length (stdin s))) s.

(** The parsed command line ([args] of [main]). *)
Record Args := {
  arg_url : option str;
  arg_urls : option str;
  arg_file : option str;
  arg_interactive : bool;
  arg_output : str;
  arg_headless : bool;
  arg_show_browser : bool;
  arg_no_anti_detection : bool
}.

(** Truth value of an optional argument: given and not empty. *)
Definition given (a : option str) : bool :=
  match a with Some s => PyStr.truthy s | None => false end.

Definition the (a : option str) : str :=
  match a with Some s => s | None => [] end.

(** [sys.exit(code)] *)
Definition sys_exit {A} (code : Z) : M W A := raise (SystemExit code).

(** [scraper = YouTubeScraperInterface(...)] *)
Definition new_scraper (o : YouTubeScraperInterface) : M W unit :=
  fun s => {| value := Return tt; after := set_self o s; events := [] |}.

Definition run_scraper (args : Args) : M W unit :=
  let headless_mode := arg_headless args && negb (arg_show_browser args) in
  let anti_detection := negb (arg_no_anti_detection args) in
  new_scraper (__init__ headless_mode anti_detection) ;;
  if arg_interactive args then interactive_mode
  else if given (arg_url args) then
    success <- scrape_single_url E (the (arg_url args)) (arg_output args) ;;
    sys_exit (if success : bool then 0%Z else 1%Z)
  else if given (arg_urls args) then
    let urls := split_urls (the (arg_urls args)) in
    success <- scrape_multiple_urls E urls (arg_output args) ;;
    sys_exit (if success : bool then 0%Z else 1%Z)
  else if given (arg_file args) then
    success <- scrape_from_file E (the (arg_file args)) (arg_output args) ;;
    sys_exit (if success : bool then 0%Z else 1%Z)
  else
    emit PrintHelp ;;
    print ([newline; fire] ++ lit " Starting interactive mode...") ;;
    interactive_mode.

(** [try: asyncio.run(run_scraper()) except KeyboardInterrupt: ...
     except Exception as e: ...] *)
Definition main (args : Args) : M W unit :=
  fun s =>
    match run_scraper args s with
    | {| value := Raise KeyboardInterrupt; after := s'; events := t |} =>
        prepend t
          ((print ([newline; waving_hand] ++ lit " Scraping interrupted by user") ;;
            sys_exit 1%Z) s')
    | {| value := Raise (Exception e); after := s'; events := t |} =>
        prepend t
          ((print ([cross_mark] ++ lit " Unexpected error: " ++ e) ;;
            sys_exit 1%Z) s')
    | r => r
    end.

(** The exit status of the process: that of [SystemExit], zero when [main]
    returns. *)
Definition exit_status (v : result unit) : Z :=
  match v with
  | Return _ => 0%Z
  | Raise (SystemExit code) => code
  | Raise _ => 1%Z
  end.

End Main.

(** ** The batch method of the extractor *)

Section Batch.

Variable W : Type.
Variable E : Engine W.

(** The record of a target whose extraction failed. *)
Definition error_record (msg : str) : record := [(lit "error", PyStr msg)].

(** Modelled from the spec: the per-target loop of
    [AdvancedYouTubeExtractor.extract_and_save_clean_data_from_urls], whose
    source is not part of [main.py].  "For each Target in input order, perform
    extraction and append the resulting Record (success or error-bearing) to
    the ResultSet -- a single Target's extraction failure is caught, converted
    into an error-bearing Record, and does NOT abort the remaining batch."
    An exception that is not an [Exception] (an interrupt) is not an
    extraction failure and leaves the loop. *)
Fixpoint extract_all (h : handle) (urls : list str) (results : list record) (w : W)
  : result (list record) * W :=
  match urls with
  | [] => (Return results, w)
  | url :: rest =>
      match extract_youtube_data E h url w with
      | (Return data, w') => extract_all h rest (results ++ [data]) w'
      | (Raise (Exception msg), w') =>
          extract_all h rest (results ++ [error_record msg]) w'
      | (Raise e, w') => (Raise e, w')
      end
  end.

(** Modelled from the spec: [extract_and_save_clean_data_from_urls].  "After
    all Targets are processed, hand the full ResultSet to the Output Writer in
    one call." *)
Definition extract_and_save_clean_data_from_urls_spec
  (h : handle) (urls : list str) (output_file : str) (w : W) : result unit * W :=
  match extract_all h urls [] w with
  | (Return results, w') => save_clean_final_output E h results output_file w'
  | (Raise e, w') => (Raise e, w')
  end.

(** The engine whose batch method is the one the spec describes. *)
Definition spec_engine : Engine W :=
  {| AdvancedYouTubeExtractor := AdvancedYouTubeExtractor E;
     start := start E;
     extract_youtube_data := extract_youtube_data E;
     save_clean_final_output := save_clean_final_output E;
     extract_and_save_clean_data_from_urls := extract_and_save_clean_data_from_urls_spec;
     stop := stop E |}.

(** [scrape_many] of the spec: [scrape_multiple_urls] over that engine. *)
Definition scrape_many (urls : list str) (output_file : str) : M W bool :=
  scrape_multiple_urls spec_engine urls output_file.

(** The record a target contributes, from the outcome of its extraction. *)
Definition record_of (o : result record) : option record :=
  match o with
  | Return data => Some data
  | Raise (Exception msg) => Some (error_record msg)
  | Raise _ => None
  end.

(** The ResultSet of a batch, target by target: the [i]-th record is the
    outcome of extracting the [i]-th target, in the engine state the
    extractions before it left. *)
Inductive result_set (h : handle) : list str -> W -> list record -> W -> Prop :=
| result_set_nil w : result_set h [] w [] w
| result_set_cons url urls w o w1 r rs w2 :
    extract_youtube_data E h url w = (o, w1) ->
    record_of o = Some r ->
    result_set h urls w1 rs w2 ->
    result_set h (url :: urls) w (r :: rs) w2.

End Batch.

(** ** A scripted engine *)

(** An engine whose operations have scripted outcomes; its state counts the
    extractors constructed, the count is the next handle, and the outcome of a
    construction may depend on it. *)
Record Script := {
  on_construct : nat -> option exn;
  on_start : option exn;
  on_extract : str -> result record;
  on_save : option exn;
  on_batch : option exn;
  on_stop : option exn
}.

Definition outcome (o : option exn) : result unit :=
  match o with None => Return tt | Some e => Raise e end.

Definition scripted (p : Script) : Engine nat :=
  {| AdvancedYouTubeExtractor := fun _ _ n =>
       (match on_construct p n with None => Return n | Some e => Raise e end, S n);
     start := fun _ n => (outcome (on_start p), n);
     extract_youtube_data := fun _ url n => (on_extract p url, n);
     save_clean_final_output := fun _ _ _ n => (outcome (on_save p), n);
     extract_and_save_clean_data_from_urls := fun _ _ _ n => (outcome (on_batch p), n);
     stop := fun _ n => (outcome (on_stop p), n) |}.

(** A page that extracts to a title, and one that does not extract. *)
Definition url_a : str := lit "https://a".
Definition url_b : str := lit "https://b".
Definition record_a : record := [(lit "title", PyStr (lit "a"))].
Definition record_b : record := [(lit "error", PyStr (lit "not found"))].

Definition pages (url : str) : result record :=
  if PyStr.eqb url url_a then Return record_a
  else if PyStr.eqb url url_b then Return record_b
  else Raise (Exception (lit "timeout")).

Definition all_well : Script :=
  {| on_construct := fun _ => None; on_start := None; on_extract := pages;
     on_save := None; on_batch := None; on_stop := None |}.

Definition no_files : str -> file := fun _ => Absent.

(** A fresh interface in a world where nothing was constructed yet. *)
Definition fresh (fs : str -> file) (keys : list keyboard) : State nat :=
  {| self := __init__ true true; engine := 0; files := fs; stdin := keys |}.

Definition dest : str := lit "out.json".

(** ** Entry points *)

(** The two entry points that open a session. *)
Inductive entry :=
| Single (url output_file : str)
| Multiple (urls : list str) (output_file : str).

Definition invoke {W} (E : Engine W) (c : entry) : M W bool :=
  match c with
  | Single url output_file => scrape_single_url E url output_file
  | Multiple urls output_file => scrape_multiple_urls E urls output_file
  end.

(** The constructor call an entry point makes in a state. *)
Definition construction {W} (E : Engine W) (s : State W) : result handle * W :=
  AdvancedYouTubeExtractor E (headless (self s)) (enable_anti_detection (self s))
    (engine s).

(** Scripts for the ways a call can go wrong. *)
Definition no_browser : Script :=
  {| on_construct := fun _ => Some (Exception (lit "no browser")); on_start := None;
     on_extract := pages; on_save := None; on_batch := None; on_stop := None |}.

Definition start_fails : Script :=
  {| on_construct := fun _ => None; on_start := Some (Exception (lit "launch failed"));
     on_extract := pages; on_save := None; on_batch := None; on_stop := None |}.

Definition disk_full : Script :=
  {| on_construct := fun _ => None; on_start := None; on_extract := pages;
     on_save := Some (Exception (lit "disk full")); on_batch := None;
     on_stop := None |}.

Definition stop_fails : Script :=
  {| on_construct := fun _ => None; on_start := None; on_extract := pages;
     on_save := None; on_batch := None;
     on_stop := Some (Exception (lit "browser gone")) |}.

Definition interrupted : Script :=
  {| on_construct := fun _ => None; on_start := None;
     on_extract := fun _ => Raise KeyboardInterrupt;
     on_save := None; on_batch := Some KeyboardInterrupt; on_stop := None |}.

(** The browser is there for the first extractor and gone afterwards. *)
Definition browser_lost : Script :=
  {| on_construct := fun n => if Nat.eqb n 0 then None
                              else Some (Exception (lit "no browser"));
     on_start := None; on_extract := pages; on_save := None; on_batch := None;
     on_stop := None |}.

(** A disk with one file. *)
Definition disk (path : str) (f : file) : str -> file :=
  fun p => if PyStr.eqb p path then f else Absent.

Definition urls_txt : str := lit "urls.txt".

(** Two blank lines and a line that is not a URL. *)
Definition notes : list str :=
  [[newline]; [newline]; lit "note: not a url" ++ [newline]].

(** Targets among other lines, one of them twice. *)
Definition mixed : list str :=
  [lit "  https://a " ++ [newline]; [newline]; lit "# comment" ++ [newline];
   lit "https://b" ++ [newline]; lit "ftp://c" ++ [newline];
   lit "https://a" ++ [newline]].

(** The messages of [scrape_from_file]. *)
Definition file_not_found (file_path : str) : str :=
  [cross_mark] ++ lit " File not found: " ++ file_path.

Definition no_valid_urls (file_path : str) : str :=
  [cross_mark] ++ lit " No valid YouTube URLs found in " ++ file_path.

Definition found_urls (n : nat) (file_path : str) : str :=
  [page_up] ++ lit " Found " ++ of_nat n ++ lit " URLs in " ++ file_path.

Definition error_reading_file (e : str) : str :=
  [cross_mark] ++ lit " Error reading file: " ++ e.

(** A target that times out, and a batch around it. *)
Definition url_c : str := lit "https://c".
Definition batch_abc : list str := [url_a; url_c; url_b].

(** The scrape a command line asks for, when it asks for one: the call whose
    result [run_scraper] hands to [sys.exit]. *)
Definition requested {W} (E : Engine W) (args : Args) : option (M W bool) :=
  if arg_interactive args then None
  else if given (arg_url args) then
    Some (scrape_single_url E (the (arg_url args)) (arg_output args))
  else if given (arg_urls args) then
    Some (scrape_multiple_urls E (split_urls (the (arg_urls args))) (arg_output args))
  else if given (arg_file args) then
    Some (scrape_from_file E (the (arg_file args)) (arg_output args))
  else None.

(** The interface [run_scraper] constructs for a command line. *)
Definition scraper_of (args : Args) : YouTubeScraperInterface :=
  __init__ (arg_headless args && negb (arg_show_browser args))
           (negb (arg_no_anti_detection args)).

(** [python main.py --urls "https://a,https://b"] *)
Definition two_urls : Args :=
  {| arg_url := None; arg_urls := Some (lit "https://a,https://b");
     arg_file := None; arg_interactive := false;
     arg_output := lit "youtube_scraped_data.json"; arg_headless := true;
     arg_show_browser := false; arg_no_anti_detection := false |}.

(** A computation that does not add to the terminal's pending input. *)
Definition keeps_stdin {W A} (c : M W A) : Prop :=
  forall s, List.length (stdin (after (c s))) <= List.length (stdin s).

(** ** Convenience functions *)

Section Quick.

Variable W : Type.
Variable E : Engine W.

(** A method run on an interface object of its own, [scraper = ...] local to
    the function: the caller's object is the same afterwards. *)
Definition with_scraper {A} (o : YouTubeScraperInterface) (c : M W A) : M W A :=
  fun s =>
    match c (set_self o s) with
    | {| value := v; after := s'; events := t |} =>
        {| value := v; after := set_self (self s) s'; events := t |}
    end.

(** [YouTubeScraperInterface(headless=headless)]: the second setting takes its
    default, [True]. *)
Definition quick_scrape (url output : str) (headless : bool) : M W bool :=
  with_scraper (__init__ headless true) (scrape_single_url E url output).

Definition quick_batch_scrape (urls : list str) (output : str) (headless : bool)
  : M W bool :=
  with_scraper (__init__ headless true) (scrape_multiple_urls E urls output).

Definition quick_file_scrape (file_path output : str) (headless : bool) : M W bool :=
  with_scraper (__init__ headless true) (scrape_from_file E file_path output).

End Quick.

(** ** More observations of a trace *)

(** The settings the extractors were constructed with. *)
Fixpoint constructs (t : list event) : list (bool * bool) :=
  match t with
  | [] => []
  | Construct hl ad :: t' => (hl, ad) :: constructs t'
  | _ :: t' => constructs t'
  end.

(** What the batch method was handed. *)
Fixpoint batches (t : list event) : list (handle * list str * str) :=
  match t with
  | [] => []
  | ExtractAndSave h urls o :: t' => (h, urls, o) :: batches t'
  | _ :: t' => batches t'
  end.

(** How far a call is with its session. *)
Inductive phase :=
| Idle
| Active (h : handle)
| Over.

(** The use of the extractor a call may make: one construction and one
    [start()], both before anything else; extraction and saving on the started
    extractor only; one [stop()], after which nothing is called. *)
Definition use (p : phase) (ev : event) : option phase :=
  match ev, p with
  | (Print _ | PrintHelp | Input _), _ => Some p
  | Construct _ _, Idle => Some Idle
  | Start h, Idle => Some (Active h)
  | (Extract h' _ | Save h' _ _ | ExtractAndSave h' _ _), Active h =>
      if Nat.eqb h h' then Some (Active h) else None
  | Stop h', Active h => if Nat.eqb h h' then Some Over else None
  | Stop _, Idle => Some Over
  | _, _ => None
  end.

(** The phase a trace leaves the session in, when every event of the trace
    is a use the phase allows. *)
Fixpoint phase_after (p : phase) (t : list event) : option phase :=
  match t with
  | [] => Some p
  | ev :: t' =>
      match use p ev with
      | Some p' => phase_after p' t'
      | None => None
      end
  end.

(** The session of a call on an interface that has no extractor yet: one
    extractor at most, constructed with the settings of the interface;
    [stop()] is called on the extractor [start()] was called on, once, and on
    no other. *)
Definition closed (o : YouTubeScraperInterface) (t : list event) : Prop :=
  Forall (eq (headless o, enable_anti_detection o)) (constructs t)
  /\ stops t = starts t
  /\ List.length (starts t) <= 1.

(** An extraction whose record has an [error] field that [str()] cannot
    render. *)
Definition huge_error : record := [(lit "error", PyInt (10 ^ 4300))].

Definition unprintable : Script :=
  {| on_construct := fun _ => None; on_start := None;
     on_extract := fun _ => Return huge_error;
     on_save := None; on_batch := None; on_stop := None |}.

(** What a choice of the menu asks for, when it asks for a scrape: the prompt
    for its input, the output file when none is named, and the method that is
    given the trimmed input. *)
Definition asked {W} (E : Engine W) (choice : str)
  : option (str * str * (str -> str -> M W bool)) :=
  if PyStr.eqb choice (lit "1") then
    Some (lit "Enter YouTube URL: ", lit "youtube_data.json", scrape_single_url E)
  else if PyStr.eqb choice (lit "2") then
    Some (lit "Enter URLs (comma-separated): ", lit "youtube_batch_data.json",
          fun text => scrape_multiple_urls E (split_urls text))
  else if PyStr.eqb choice (lit "3") then
    Some (lit "Enter file path: ", lit "youtube_file_data.json", scrape_from_file E)
  else None.

(** The last line of an interactive session. *)
Definition goodbye : str := [waving_hand] ++ lit " Goodbye!".

(** A step of the interactive loop that does not end the loop. *)
Definition continues {W} (c : M W loop_step) : Prop :=
  forall s b, value (c s) = Return b -> b = Continue.


(** A terminal on which the user asks for [https://b], takes the default
    output, and leaves. *)
Definition one_scrape_then_exit : list keyboard :=
  [Line (lit "1"); Line (lit " https://b "); Line []; Line (lit "4")].

(** * Properties *)

(** The outcome of [try: ... finally: cleanup] from the outcome [v] of the
    [try] and [except] clauses and the outcome [o] of the cleanup. *)
Definition after_cleanup {A} (v : result A) (o : result unit) : result A :=
  match o with
  | Return _ => v
  | Raise e => Raise e
  end.

(** The outcome of the cleanup clause in engine state [w] when
    [self.extractor] is [x]. *)
Definition cleanup_outcome {W} (E : Engine W) (x : option handle) (w : W)
  : result unit :=
  match x with
  | Some h => fst (stop E h w)
  | None => Return tt
  end.

(** A record without a true [error] field. *)
Definition clean (data : record) : bool := negb (truthy (dict_get data (lit "error"))).

(** Two constructions that both return an extractor, or raise the same
    exception. *)
Definition constructed_alike (o1 o2 : result handle) : Prop :=
  match o1, o2 with
  | Return _, Return _ => True
  | Raise e1, Raise e2 => e1 = e2
  | _, _ => False
  end.

(** A deterministic session: what an operation returns or raises depends on
    its arguments only, not on the state of the engine nor on which extractor
    object it is called on. *)
Record deterministic {W} (E : Engine W) : Prop := {
  det_construct : forall a b w w',
    constructed_alike (fst (AdvancedYouTubeExtractor E a b w))
                      (fst (AdvancedYouTubeExtractor E a b w'));
  det_start : forall h h' w w', fst (start E h w) = fst (start E h' w');
  det_extract : forall h h' url w w',
    fst (extract_youtube_data E h url w) = fst (extract_youtube_data E h' url w');
  det_save : forall h h' rs o w w',
    fst (save_clean_final_output E h rs o w)
    = fst (save_clean_final_output E h' rs o w');
  det_stop : forall h h' w w', fst (stop E h w) = fst (stop E h' w')
}.

(** ** Proof support *)

(** Unfolding of the interface's code and of the trace projections, and
    nothing else: messages stay folded. *)
Ltac reduce :=
  unfold invoke, scrape_single_url, scrape_multiple_urls, scrape_from_file,
    try_finally, try_except, bind, prepend, call, cleanup, self_extractor,
    assign_extractor, get_self, evaluate, print, emit, ret, raise, os_path_exists,
    readlines in *;
  cbn [value after events self extractor engine files stdin
       headless enable_anti_detection set_self set_engine
       stops starts saves extracts constructions running
       app fst snd negb orb andb existsb Nat.eqb List.length] in *.

(** What [str()] raises is an [Exception]. *)
Lemma str_of_raises v e : str_of v = Raise e -> exists m, e = Exception m.
Proof.
  destruct v as [|[|]|z|t]; cbn [str_of]; try discriminate.
  destruct (Z.abs z <? 10 ^ int_max_str_digits)%Z; [discriminate|].
  intros [= <-]. eauto.
Qed.

(** Case analysis on the next engine call of the goal, in program order, then
    on the tests of the program. *)
Ltac next_case E :=
  match goal with
  | |- context [AdvancedYouTubeExtractor E ?a ?b ?w] =>
      destruct (AdvancedYouTubeExtractor E a b w) as [[?|[?| |?]] ?] eqn:?
  | |- context [start E ?h ?w] =>
      destruct (start E h w) as [[[]|[?| |?]] ?] eqn:?
  | |- context [extract_youtube_data E ?h ?u ?w] =>
      destruct (extract_youtube_data E h u w) as [[?|[?| |?]] ?] eqn:?
  | |- context [save_clean_final_output E ?h ?r ?o ?w] =>
      destruct (save_clean_final_output E h r o w) as [[[]|[?| |?]] ?] eqn:?
  | |- context [extract_and_save_clean_data_from_urls E ?h ?u ?o ?w] =>
      destruct (extract_and_save_clean_data_from_urls E h u o w)
        as [[[]|[?| |?]] ?] eqn:?
  | |- context [stop E ?h ?w] =>
      destruct (stop E h w) as [[[]|[?| |?]] ?] eqn:?
  | |- context [truthy ?v] => destruct (truthy v) eqn:?
  | |- context [str_of ?v] =>
      let H := fresh "Hstr" in
      destruct (str_of v) as [?|[?| |?]] eqn:H;
      try solve [exfalso; apply str_of_raises in H; destruct H as [? H];
                 discriminate H]
  | |- context [match extractor ?x with _ => _ end] => destruct (extractor x) eqn:?
  end.

Ltac cases E := unfold construction in *; reduce; repeat (next_case E; reduce).

(** ** Strings *)

Lemma eqb_eq a b : PyStr.eqb a b = true <-> a = b.
Proof.
  unfold PyStr.eqb. destruct (list_eq_dec N.eq_dec a b); split; congruence.
Qed.

Lemma eqb_refl a : PyStr.eqb a a = true.
Proof. now apply eqb_eq. Qed.

(** ** Session lifecycle *)

Section SessionLifecycle.

Variable W : Type.
Variable E : Engine W.

Lemma running_stopped h t u :
  running h (t ++ Stop h :: u) = running h u.
Proof.
  induction t as [|ev t IH]; cbn [app running]; [reflexivity|].
  destruct ev; try exact IH.
  destruct (Nat.eqb h h0) eqn:Eh; [|exact IH].
  rewrite IH. replace (existsb (Nat.eqb h) (stops (t ++ Stop h :: u))) with true.
  - reflexivity.
  - symmetry. apply existsb_exists. exists h. split; [|apply Nat.eqb_refl].
    clear. induction t as [|ev t IH]; cbn [app stops].
    + now left.
    + destruct ev; try exact IH. now right.
Qed.

Lemma running_not_started h t :
  ~ In h (starts t) -> running h t = false.
Proof.
  induction t as [|ev t IH]; cbn [starts running]; [reflexivity|].
  destruct ev; try exact IH.
  cbn [In]. intros Hn. destruct (Nat.eqb h h0) eqn:Eh.
  - apply Nat.eqb_eq in Eh. subst. tauto.
  - apply IH. tauto.
Qed.

(** After a call in which the extractor was constructed, [self.extractor] is
    that extractor. *)
Lemma extractor_left_over c s h w :
  construction E s = (Return h, w) ->
  extractor (self (after (invoke E c s))) = Some h.
Proof.
  intros H. destruct c; unfold construction in H; reduce; rewrite H; cases E;
    reflexivity.
Qed.

(** A call in which the constructor raises leaves [self.extractor] as it
    was. *)
Lemma extractor_kept c s e w :
  construction E s = (Raise e, w) ->
  extractor (self (after (invoke E c s))) = extractor (self s).
Proof.
  intros H. destruct c; unfold construction in H; reduce; rewrite H;
    destruct e; cases E; congruence.
Qed.

(** What the cleanup clause stops when the constructor raises: whatever
    [self.extractor] held before the call. *)
Lemma stops_when_construction_raises c s e w :
  construction E s = (Raise e, w) ->
  stops (events (invoke E c s)) =
  match extractor (self s) with Some h => [h] | None => [] end.
Proof.
  intros H. destruct c; unfold construction in H; reduce; rewrite H;
    destruct e; cases E; reflexivity.
Qed.

Lemma starts_when_constructed c s h w :
  construction E s = (Return h, w) ->
  starts (events (invoke E c s)) = [h].
Proof.
  intros H. destruct c; unfold construction in H; reduce; rewrite H; cases E;
    reflexivity.
Qed.

Lemma starts_when_construction_raises c s e w :
  construction E s = (Raise e, w) ->
  starts (events (invoke E c s)) = [].
Proof.
  intros H. destruct c; unfold construction in H; reduce; rewrite H;
    destruct e; cases E; reflexivity.
Qed.

Lemma stop_once_when_constructed c s h w :
  construction E s = (Return h, w) ->
  stops (events (invoke E c s)) = [h].
Proof.
  intros H. destruct c; unfold construction in H; reduce; rewrite H; cases E;
    reflexivity.
Qed.

(** The last event of a call that constructed its extractor is the [stop()]
    of that extractor. *)
Lemma stop_is_last c s h w :
  construction E s = (Return h, w) ->
  exists t, events (invoke E c s) = t ++ [Stop h].
Proof.
  intros H. destruct c; unfold construction in H; reduce; rewrite H; cases E;
    match goal with
    | |- exists t, ?a :: ?l = _ =>
        exists (removelast (a :: l)); cbn [removelast app]; reflexivity
    end.
Qed.

(** No session started by a call is running when the call is over, whatever
    the call met. *)
Lemma none_running c s h :
  running h (events (invoke E c s)) = false.
Proof.
  destruct (construction E s) as [[h0|e] w] eqn:H.
  - destruct (Nat.eq_dec h h0) as [->|Hne].
    + destruct (stop_is_last c s H) as [t Ht]. rewrite Ht.
      rewrite running_stopped. reflexivity.
    + apply running_not_started. rewrite (starts_when_constructed c s H).
      cbn [In]. intuition congruence.
  - apply running_not_started.
    rewrite (starts_when_construction_raises c s H). intros [].
Qed.

(** C1, as amended.  Every call of [scrape_single_url] or
    [scrape_multiple_urls] in which the extractor is constructed invokes
    [stop()] exactly once, on that extractor, whatever [start()], the
    extraction, the output writer or [stop()] itself then do, and no session
    the call started is running when it is over. *)
Theorem session_stopped_exactly_once c s h w :
  construction E s = (Return h, w) ->
  stops (events (invoke E c s)) = [h] /\
  (forall h', running h' (events (invoke E c s)) = false).
Proof.
  intros H. split.
  - exact (stop_once_when_constructed c s H).
  - intros h'. apply none_running.
Qed.

(** C10.  When the constructor raises, the cleanup clause stops what
    [self.extractor] refers to: nothing on a fresh interface, and on an
    interface that an earlier call left its extractor in, that stale
    extractor. *)
Theorem cleanup_stops_what_self_holds c s e w :
  construction E s = (Raise e, w) ->
  (forall b1 b2, self s = __init__ b1 b2 -> stops (events (invoke E c s)) = []) /\
  (forall h, extractor (self s) = Some h -> stops (events (invoke E c s)) = [h]) /\
  (forall c0 s0 h w0,
      s = after (invoke E c0 s0) ->
      construction E s0 = (Return h, w0) ->
      stops (events (invoke E c s)) = [h]).
Proof.
  intros H. pose proof (stops_when_construction_raises c s H) as Hs.
  repeat split.
  - intros b1 b2 Hf. rewrite Hs, Hf. reflexivity.
  - intros h Hh. rewrite Hs, Hh. reflexivity.
  - intros c0 s0 h w0 -> H0. rewrite Hs.
    rewrite (extractor_left_over c0 s0 H0). reflexivity.
Qed.

End SessionLifecycle.

(** C1, as stated, at a fresh interface whose extractor cannot be
    constructed: the call returns [False] and [stop()] is not invoked. *)
Lemma no_stop_when_construction_raises :
  let r := invoke (scripted no_browser) (Single url_a dest) (fresh no_files []) in
  value r = Return false /\ stops (events r) = [] /\
  List.length (stops (events r)) <> 1.
Proof. vm_compute. repeat split. discriminate. Qed.

Lemma session_stopped_exactly_once_witness :
  let E := scripted all_well in
  let s := fresh no_files [] in
  construction E s = (Return 0, 1) /\
  stops (events (invoke E (Multiple [url_a; url_b] dest) s)) = [0] /\
  (forall h', running h' (events (invoke E (Multiple [url_a; url_b] dest) s)) = false).
Proof.
  split; [reflexivity|].
  apply (@session_stopped_exactly_once nat (scripted all_well)
           (Multiple [url_a; url_b] dest) (fresh no_files []) 0 1).
  reflexivity.
Defined.

Lemma cleanup_stops_what_self_holds_witness :
  let E := scripted browser_lost in
  let s0 := fresh no_files [] in
  let s := after (invoke E (Single url_a dest) s0) in
  construction E s = (Raise (Exception (lit "no browser")), 2) /\
  stops (events (invoke E (Single url_a dest) s)) = [0].
Proof.
  split; [reflexivity|].
  refine (proj2 (proj2 (@cleanup_stops_what_self_holds nat (scripted browser_lost)
           (Single url_a dest) _ (Exception (lit "no browser")) 2 _))
           (Single url_a dest) (fresh no_files []) 0 1 _ _); reflexivity.
Defined.

(** ** [scrape_single_url], step by step *)

Section SingleUrl.

Variable W : Type.
Variable E : Engine W.
Variables url output_file : str.
Variable s : State W.

Local Abbreviation r := (scrape_single_url E url output_file s).

Ltac single H := unfold construction, cleanup_outcome, after_cleanup, clean in *;
  reduce; rewrite ?H; reduce.

(** The constructor raises: no session, nothing written. *)
Lemma single_constructor_raises m w :
  construction E s = (Raise (Exception m), w) ->
  value r = after_cleanup (Return false) (cleanup_outcome E (extractor (self s)) w)
  /\ starts (events r) = [] /\ extracts (events r) = [] /\ saves (events r) = [].
Proof.
  intros H. single H. cases E; repeat split; congruence.
Qed.

(** [start()] raises: nothing extracted, nothing written. *)
Lemma single_start_raises h w1 m w2 :
  construction E s = (Return h, w1) ->
  start E h w1 = (Raise (Exception m), w2) ->
  value r = after_cleanup (Return false) (fst (stop E h w2))
  /\ starts (events r) = [h] /\ extracts (events r) = [] /\ saves (events r) = [].
Proof.
  intros H H1. single H. rewrite H1; reduce. cases E; repeat split; congruence.
Qed.

(** The extraction raises: nothing written. *)
Lemma single_extraction_raises h w1 w2 m w3 :
  construction E s = (Return h, w1) ->
  start E h w1 = (Return tt, w2) ->
  extract_youtube_data E h url w2 = (Raise (Exception m), w3) ->
  value r = after_cleanup (Return false) (fst (stop E h w3))
  /\ starts (events r) = [h] /\ extracts (events r) = [url] /\ saves (events r) = [].
Proof.
  intros H H1 H2. single H. rewrite H1; reduce. rewrite H2; reduce.
  cases E; repeat split; congruence.
Qed.

(** The record carries an error: nothing written. *)
Lemma single_error_record h w1 w2 data w3 :
  construction E s = (Return h, w1) ->
  start E h w1 = (Return tt, w2) ->
  extract_youtube_data E h url w2 = (Return data, w3) ->
  clean data = false ->
  value r = after_cleanup (Return false) (fst (stop E h w3))
  /\ starts (events r) = [h] /\ extracts (events r) = [url] /\ saves (events r) = [].
Proof.
  intros H H1 H2 H3. single H. rewrite H1; reduce. rewrite H2; reduce.
  apply negb_false_iff in H3. rewrite H3.
  cases E; repeat split; congruence.
Qed.

(** The record is clean: it is handed to the output writer, alone; the
    outcome is that of the writer. *)
Lemma single_clean_record h w1 w2 data w3 o w4 :
  construction E s = (Return h, w1) ->
  start E h w1 = (Return tt, w2) ->
  extract_youtube_data E h url w2 = (Return data, w3) ->
  clean data = true ->
  save_clean_final_output E h [data] output_file w3 = (o, w4) ->
  value r =
    after_cleanup
      match o with
      | Return _ => Return true
      | Raise (Exception _) => Return false
      | Raise e => Raise e
      end (fst (stop E h w4))
  /\ starts (events r) = [h] /\ extracts (events r) = [url]
  /\ saves (events r) = [([data], output_file)].
Proof.
  intros H H1 H2 H3 H4. single H. rewrite H1; reduce. rewrite H2; reduce.
  apply negb_true_iff in H3. rewrite H3; reduce. rewrite H4; reduce.
  destruct o as [[]|[?| |?]]; cases E; repeat split; congruence.
Qed.

(** The writer is invoked at most once, and then with exactly one record,
    a clean one, and the destination of the call. *)
Lemma single_writes_clean_only :
  saves (events r) = [] \/
  exists data, saves (events r) = [([data], output_file)] /\ clean data = true.
Proof.
  unfold clean. cases E;
    solve [ now left
          | right; eexists; split; [reflexivity|];
            apply negb_true_iff; assumption ].
Qed.

(** Success is returned only after the clean record was written. *)
Lemma single_success_written :
  value r = Return true ->
  exists data, saves (events r) = [([data], output_file)] /\ clean data = true.
Proof.
  unfold clean. cases E; intros Hv; try discriminate Hv;
    eexists; (split; [reflexivity|]); apply negb_true_iff; assumption.
Qed.

End SingleUrl.

(** C5, as amended.  [scrape_single_url] constructs and starts a session,
    extracts once and tests the record's [error] field.  When the
    constructor, [start()] or the extraction raises an [Exception], or the
    record carries an error, the output writer is not invoked and the result
    is [False].  When the record is clean, it is handed to the output writer,
    alone and once, and the result is [True] when the writer returns and
    [False] when it raises an [Exception].  The result is returned when the
    cleanup's [stop()] returns; an exception of [stop()] is raised by the call
    instead ([after_cleanup]).  [True] is returned only after a clean record
    was written. *)
Theorem scrape_single_url_outcome {W} (E : Engine W) url output_file s :
  let r := scrape_single_url E url output_file s in
  (forall m w,
      construction E s = (Raise (Exception m), w) ->
      value r = after_cleanup (Return false) (cleanup_outcome E (extractor (self s)) w)
      /\ saves (events r) = []) /\
  (forall h w1 m w2,
      construction E s = (Return h, w1) ->
      start E h w1 = (Raise (Exception m), w2) ->
      value r = after_cleanup (Return false) (fst (stop E h w2))
      /\ extracts (events r) = [] /\ saves (events r) = []) /\
  (forall h w1 w2 m w3,
      construction E s = (Return h, w1) ->
      start E h w1 = (Return tt, w2) ->
      extract_youtube_data E h url w2 = (Raise (Exception m), w3) ->
      value r = after_cleanup (Return false) (fst (stop E h w3))
      /\ extracts (events r) = [url] /\ saves (events r) = []) /\
  (forall h w1 w2 data w3,
      construction E s = (Return h, w1) ->
      start E h w1 = (Return tt, w2) ->
      extract_youtube_data E h url w2 = (Return data, w3) ->
      clean data = false ->
      value r = after_cleanup (Return false) (fst (stop E h w3))
      /\ extracts (events r) = [url] /\ saves (events r) = []) /\
  (forall h w1 w2 data w3 o w4,
      construction E s = (Return h, w1) ->
      start E h w1 = (Return tt, w2) ->
      extract_youtube_data E h url w2 = (Return data, w3) ->
      clean data = true ->
      save_clean_final_output E h [data] output_file w3 = (o, w4) ->
      value r =
        after_cleanup
          match o with
          | Return _ => Return true
          | Raise (Exception _) => Return false
          | Raise e => Raise e
          end (fst (stop E h w4))
      /\ extracts (events r) = [url]
      /\ saves (events r) = [([data], output_file)]) /\
  (saves (events r) = [] \/
   exists data, saves (events r) = [([data], output_file)] /\ clean data = true) /\
  (value r = Return true ->
   exists data, saves (events r) = [([data], output_file)] /\ clean data = true).
Proof.
  intros r. subst r. repeat split.
  - eapply single_constructor_raises; eauto.
  - eapply single_constructor_raises; eauto.
  - eapply single_start_raises; eauto.
  - eapply single_start_raises; eauto.
  - eapply single_start_raises; eauto.
  - eapply single_extraction_raises; eauto.
  - eapply single_extraction_raises; eauto.
  - eapply single_extraction_raises; eauto.
  - eapply single_error_record; eauto.
  - eapply single_error_record; eauto.
  - eapply single_error_record; eauto.
  - eapply single_clean_record; eauto.
  - eapply single_clean_record; eauto.
  - eapply single_clean_record; eauto.
  - apply single_writes_clean_only.
  - apply single_success_written.
Qed.

(** An exception of [stop()] is not caught: the record was written, and the
    call raises. *)
Example stop_failure_propagates :
  let r := scrape_single_url (scripted stop_fails) url_a dest (fresh no_files []) in
  value r = Raise (Exception (lit "browser gone"))
  /\ saves (events r) = [([record_a], dest)]
  /\ stops (events r) = [0].
Proof. vm_compute. repeat split. Qed.

(** C5, as stated, where the step that raises is the output writer: the call
    returns [False], and the writer was invoked. *)
Lemma writer_invoked_when_it_raises :
  let r := scrape_single_url (scripted disk_full) url_a dest (fresh no_files []) in
  value r = Return false /\ saves (events r) = [([record_a], dest)]
  /\ saves (events r) <> [].
Proof. vm_compute. repeat split. discriminate. Qed.

Lemma scrape_single_url_outcome_witness :
  let E := scripted all_well in
  let s := fresh no_files [] in
  let r := scrape_single_url E url_b dest s in
  (construction E s = (Return 0, 1) /\ start E 0 1 = (Return tt, 1) /\
   extract_youtube_data E 0 url_b 1 = (Return record_b, 1) /\
   clean record_b = false) /\
  value r = Return false /\ extracts (events r) = [url_b] /\ saves (events r) = [].
Proof.
  split; [repeat split|].
  refine (proj1 (proj2 (proj2 (proj2
            (@scrape_single_url_outcome nat (scripted all_well) url_b dest
               (fresh no_files [])))))
            0 1 1 record_b 1 _ _ _ _); reflexivity.
Defined.

(** ** Determinism *)

Section Deterministic.

Variable W : Type.
Variable E : Engine W.
Hypothesis Hdet : deterministic E.

(** Case analysis on the same engine call in two runs at once: a
    deterministic engine gives both the same outcome. *)
Ltac aligned X :=
  cbn [fst constructed_alike] in X;
  try discriminate X; try contradiction;
  try (injection X as X); try discriminate X; try (injection X as X); subst.

Ltac align :=
  match goal with
  | |- context [AdvancedYouTubeExtractor E ?a ?b ?w1] =>
      match goal with
      | |- context [AdvancedYouTubeExtractor E a b ?w2] =>
          assert_fails (constr_eq w1 w2);
          let X := fresh "X" in
          pose proof (det_construct Hdet a b w1 w2) as X;
          destruct (AdvancedYouTubeExtractor E a b w1) as [[?|[?| |?]] ?],
                   (AdvancedYouTubeExtractor E a b w2) as [[?|[?| |?]] ?];
          aligned X
      end
  | |- context [start E ?h1 ?w1] =>
      match goal with
      | |- context [start E ?h2 ?w2] =>
          assert_fails (constr_eq w1 w2);
          let X := fresh "X" in
          pose proof (det_start Hdet h1 h2 w1 w2) as X;
          destruct (start E h1 w1) as [[[]|[?| |?]] ?],
                   (start E h2 w2) as [[[]|[?| |?]] ?];
          aligned X
      end
  | |- context [extract_youtube_data E ?h1 ?u ?w1] =>
      match goal with
      | |- context [extract_youtube_data E ?h2 u ?w2] =>
          assert_fails (constr_eq w1 w2);
          let X := fresh "X" in
          pose proof (det_extract Hdet h1 h2 u w1 w2) as X;
          destruct (extract_youtube_data E h1 u w1) as [[?|[?| |?]] ?],
                   (extract_youtube_data E h2 u w2) as [[?|[?| |?]] ?];
          aligned X
      end
  | |- context [save_clean_final_output E ?h1 ?rs ?o ?w1] =>
      match goal with
      | |- context [save_clean_final_output E ?h2 rs o ?w2] =>
          assert_fails (constr_eq w1 w2);
          let X := fresh "X" in
          pose proof (det_save Hdet h1 h2 rs o w1 w2) as X;
          destruct (save_clean_final_output E h1 rs o w1) as [[[]|[?| |?]] ?],
                   (save_clean_final_output E h2 rs o w2) as [[[]|[?| |?]] ?];
          aligned X
      end
  | |- context [stop E ?h1 ?w1] =>
      match goal with
      | |- context [stop E ?h2 ?w2] =>
          assert_fails (constr_eq w1 w2);
          let X := fresh "X" in
          pose proof (det_stop Hdet h1 h2 w1 w2) as X;
          destruct (stop E h1 w1) as [[[]|[?| |?]] ?],
                   (stop E h2 w2) as [[[]|[?| |?]] ?];
          aligned X
      end
  | |- context [truthy ?v] => destruct (truthy v) eqn:?
  | |- context [str_of ?v] => destruct (str_of v) as [?|[?| |?]]
  end.

(** Two runs of [scrape_single_url] on interfaces with the same settings
    against a deterministic engine; when the constructor raises, the cleanup
    looks at [self.extractor], and the two interfaces have to be both fresh
    or both used. *)
Lemma deterministic_runs url output_file s1 s2 :
  headless (self s1) = headless (self s2) ->
  enable_anti_detection (self s1) = enable_anti_detection (self s2) ->
  match fst (construction E s1) with
  | Raise _ => extractor (self s1) = None <-> extractor (self s2) = None
  | Return _ => True
  end ->
  value (scrape_single_url E url output_file s1)
  = value (scrape_single_url E url output_file s2)
  /\ saves (events (scrape_single_url E url output_file s1))
     = saves (events (scrape_single_url E url output_file s2)).
Proof.
  intros Hh Ha. unfold construction. reduce. rewrite Hh, Ha.
  align; reduce; intros Hx;
    match type of Hx with
    | True => idtac
    | _ =>
        destruct (extractor (self s1)) as [x1|] eqn:E1,
                 (extractor (self s2)) as [x2|] eqn:E2;
        try (exfalso; destruct Hx as [Hx1 Hx2];
             (discriminate (Hx1 eq_refl) || discriminate (Hx2 eq_refl)))
    end;
    repeat (align; reduce); split; reflexivity.
Qed.

Lemma settings_kept url output_file s :
  headless (self (after (scrape_single_url E url output_file s))) = headless (self s)
  /\ enable_anti_detection (self (after (scrape_single_url E url output_file s)))
     = enable_anti_detection (self s).
Proof. cases E; split; reflexivity. Qed.

Lemma freshness_kept url output_file s :
  extractor (self (after (scrape_single_url E url output_file s))) = None ->
  extractor (self s) = None.
Proof. cases E; congruence. Qed.

End Deterministic.

(** C8.  Against a deterministic session, two calls of [scrape_single_url]
    with the same url and destination have the same result and hand the same
    ResultSet to the output writer (or none, both times): the second call
    made on the interface the first call left, or the two calls made on equal
    interfaces in any two states of the engine. *)
Theorem scrape_single_url_twice {W} (E : Engine W) url output_file s :
  deterministic E ->
  let r1 := scrape_single_url E url output_file s in
  let r2 := scrape_single_url E url output_file (after r1) in
  (value r2 = value r1 /\ saves (events r2) = saves (events r1))
  /\ (forall s',
         self s' = self s ->
         let r' := scrape_single_url E url output_file s' in
         value r' = value r1 /\ saves (events r') = saves (events r1)).
Proof.
  intros Hdet r1 r2. subst r1 r2. split.
  - destruct (settings_kept E url output_file s) as [Hh Ha].
    assert (Hx : match fst (construction E s) with
                 | Raise _ =>
                     extractor (self s) = None <->
                     extractor (self (after (scrape_single_url E url output_file s)))
                     = None
                 | Return _ => True
                 end).
    { destruct (construction E s) as [[h|e] w] eqn:Hc; cbn [fst]; [exact I|].
      pose proof (extractor_kept E (Single url output_file) s Hc) as K.
      cbn [invoke] in K. rewrite K. tauto. }
    destruct (deterministic_runs Hdet url output_file s
                (after (scrape_single_url E url output_file s))
                (eq_sym Hh) (eq_sym Ha) Hx) as [Hv Hs].
    split; symmetry; assumption.
  - intros s' Hself r'. subst r'.
    destruct (deterministic_runs Hdet url output_file s s') as [Hv Hs].
    + now rewrite Hself.
    + now rewrite Hself.
    + rewrite Hself. destruct (fst (construction E s)); tauto.
    + split; symmetry; assumption.
Qed.

Lemma scripted_deterministic p :
  (forall n, on_construct p n = on_construct p 0) -> deterministic (scripted p).
Proof.
  intros Hc. constructor; cbn; try reflexivity.
  intros _ _ w w'. rewrite (Hc w), (Hc w').
  destruct (on_construct p 0); cbn; auto.
Qed.

Lemma scrape_single_url_twice_witness :
  let E := scripted all_well in
  let r1 := scrape_single_url E url_a dest (fresh no_files []) in
  let r2 := scrape_single_url E url_a dest (after r1) in
  deterministic E /\
  value r2 = value r1 /\ saves (events r2) = saves (events r1).
Proof.
  split.
  - apply scripted_deterministic. reflexivity.
  - apply (proj1 (@scrape_single_url_twice nat (scripted all_well) url_a dest
                    (fresh no_files []) (scripted_deterministic all_well
                                           (fun _ => eq_refl)))).
Defined.

(** ** Targets from a source file *)

Section SourceFile.

Lemma startswith_http_truthy u :
  startswith u (lit "http") = true -> PyStr.truthy u = true.
Proof. destruct u; [discriminate|reflexivity]. Qed.

Lemma read_urls_filter lines :
  read_urls lines = filter (fun u => startswith u (lit "http")) (map strip lines).
Proof.
  unfold read_urls. induction lines as [|l lines IH]; cbn [map filter]; [reflexivity|].
  destruct (startswith (strip l) (lit "http")) eqn:Hs.
  - rewrite (startswith_http_truthy _ Hs). cbn [andb map]. now rewrite IH.
  - rewrite andb_false_r. exact IH.
Qed.

Lemma read_urls_app l1 l2 :
  read_urls (l1 ++ l2) = read_urls l1 ++ read_urls l2.
Proof. unfold read_urls. now rewrite filter_app, map_app. Qed.

Lemma read_urls_one l :
  read_urls [l] = if startswith (strip l) (lit "http") then [strip l] else [].
Proof.
  rewrite read_urls_filter. cbn [map filter]. reflexivity.
Qed.

Lemma read_urls_none lines :
  (forall l, In l lines -> startswith (strip l) (lit "http") = false) ->
  read_urls lines = [].
Proof.
  intros H. induction lines as [|l lines IH]; [reflexivity|].
  change (l :: lines) with ([l] ++ lines). rewrite read_urls_app, read_urls_one.
  rewrite (H l (or_introl eq_refl)). apply IH. intros l' Hl. apply H. now right.
Qed.

Variable W : Type.
Variable E : Engine W.
Variables file_path output_file : str.
Variable s : State W.

Lemma from_file_absent :
  files s file_path = Absent ->
  value (scrape_from_file E file_path output_file s) = Return false
  /\ events (scrape_from_file E file_path output_file s)
     = [Print (file_not_found file_path)]
  /\ after (scrape_from_file E file_path output_file s) = s.
Proof.
  intros H. reduce. rewrite H. reduce. repeat split; reflexivity.
Qed.

Lemma from_file_no_urls lines :
  files s file_path = Lines lines ->
  read_urls lines = [] ->
  value (scrape_from_file E file_path output_file s) = Return false
  /\ events (scrape_from_file E file_path output_file s)
     = [Print (no_valid_urls file_path)]
  /\ after (scrape_from_file E file_path output_file s) = s.
Proof.
  intros H Hn. reduce. rewrite H. reduce. rewrite H. reduce. rewrite Hn. reduce.
  repeat split; reflexivity.
Qed.

Lemma from_file_delegates lines :
  files s file_path = Lines lines ->
  read_urls lines <> [] ->
  let r := scrape_from_file E file_path output_file s in
  let r' := scrape_multiple_urls E (read_urls lines) output_file s in
  value r = match value r' with
            | Raise (Exception _) => Return false
            | v => v
            end
  /\ events r
     = Print (found_urls (List.length (read_urls lines)) file_path)
       :: events r'
       ++ match value r' with
          | Raise (Exception e) => [Print (error_reading_file e)]
          | _ => []
          end.
Proof.
  intros H Hn. cbv zeta.
  destruct (read_urls lines) as [|u us] eqn:Hu; [congruence|].
  unfold scrape_from_file, try_except, bind, prepend, os_path_exists, readlines,
    print, emit, ret, raise.
  cbn [value after events files negb app]. rewrite H.
  cbn [value after events files negb app]. rewrite H.
  cbn [value after events files negb app]. rewrite Hu.
  destruct (scrape_multiple_urls E (u :: us) output_file s) as [[b|[m| |c]] s' t];
    cbn [value after events files negb app]; rewrite ?app_nil_r; split; reflexivity.
Qed.

End SourceFile.

(** C2.  A source file none of whose trimmed lines starts with [http] (an
    empty file too): [scrape_from_file] returns [False], its one effect is the
    line that names the cause, and no extractor is constructed or started. *)
Theorem no_session_without_targets {W} (E : Engine W) file_path output_file s lines :
  files s file_path = Lines lines ->
  (forall l, In l lines -> startswith (strip l) (lit "http") = false) ->
  let r := scrape_from_file E file_path output_file s in
  value r = Return false
  /\ events r = [Print (no_valid_urls file_path)]
  /\ constructions (events r) = 0
  /\ starts (events r) = []
  /\ after r = s.
Proof.
  intros H Hl r. subst r.
  destruct (from_file_no_urls E file_path output_file s H (read_urls_none lines Hl))
    as (Hv & He & Ha).
  rewrite He. repeat split; assumption.
Qed.

Lemma no_session_without_targets_witness :
  let E := scripted all_well in
  let s := fresh (disk urls_txt (Lines notes)) [] in
  let r := scrape_from_file E urls_txt dest s in
  value r = Return false
  /\ events r = [Print (no_valid_urls urls_txt)]
  /\ constructions (events r) = 0
  /\ starts (events r) = []
  /\ after r = s.
Proof.
  apply (@no_session_without_targets nat (scripted all_well) urls_txt dest
           (fresh (disk urls_txt (Lines notes)) []) notes).
  - reflexivity.
  - intros l [<-|[<-|[<-|[]]]]; reflexivity.
Defined.

Lemma messages_differ file_path :
  file_not_found file_path <> no_valid_urls file_path.
Proof.
  intros H. apply (f_equal (fun l => nth 2 l 0%N)) in H. vm_compute in H.
  discriminate H.
Qed.

(** C9.  A path at which there is no file: [scrape_from_file] returns [False]
    (it does not raise), constructs and starts no extractor, and differs from
    the case of a file without targets in the line it prints only. *)
Theorem missing_file_fails_without_session {W} (E : Engine W) file_path output_file s :
  files s file_path = Absent ->
  let r := scrape_from_file E file_path output_file s in
  value r = Return false
  /\ events r = [Print (file_not_found file_path)]
  /\ constructions (events r) = 0
  /\ starts (events r) = []
  /\ after r = s
  /\ (forall s' lines,
         files s' file_path = Lines lines ->
         read_urls lines = [] ->
         let r' := scrape_from_file E file_path output_file s' in
         value r' = value r
         /\ events r' = [Print (no_valid_urls file_path)]
         /\ after r' = s')
  /\ file_not_found file_path <> no_valid_urls file_path.
Proof.
  intros H r. subst r.
  destruct (from_file_absent E file_path output_file s H) as (Hv & He & Ha).
  rewrite He, Hv. repeat split; try assumption.
  - eapply from_file_no_urls; eassumption.
  - eapply from_file_no_urls; eassumption.
  - eapply from_file_no_urls; eassumption.
  - apply messages_differ.
Qed.

Lemma missing_file_fails_without_session_witness :
  let E := scripted all_well in
  let s := fresh no_files [] in
  let r := scrape_from_file E urls_txt dest s in
  files s urls_txt = Absent
  /\ value r = Return false
  /\ events r = [Print (file_not_found urls_txt)]
  /\ constructions (events r) = 0.
Proof.
  split; [reflexivity|].
  pose proof (@missing_file_fails_without_session nat (scripted all_well) urls_txt
                dest (fresh no_files []) eq_refl) as (Hv & He & Hc & _).
  repeat split; assumption.
Defined.

(** C6.  The targets of a source file are its trimmed lines that start with
    [http], in the order of the file, as often as they occur; the other lines
    contribute nothing, and no line makes the reading fail.  These targets are
    what [scrape_from_file] hands to [scrape_multiple_urls]. *)
Theorem targets_of_source_file (lines : list str) :
  read_urls lines = filter (fun u => startswith u (lit "http")) (map strip lines)
  /\ (forall u, In u (read_urls lines) <->
                exists l, In l lines /\ u = strip l
                          /\ startswith u (lit "http") = true)
  /\ (forall before l after,
         lines = before ++ l :: after ->
         read_urls lines
         = read_urls before
           ++ (if startswith (strip l) (lit "http") then [strip l] else [])
           ++ read_urls after)
  /\ (forall W (E : Engine W) file_path output_file s,
         files s file_path = Lines lines ->
         read_urls lines <> [] ->
         let r := scrape_from_file E file_path output_file s in
         let r' := scrape_multiple_urls E (read_urls lines) output_file s in
         value r = match value r' with
                   | Raise (Exception _) => Return false
                   | v => v
                   end
         /\ events r
            = Print (found_urls (List.length (read_urls lines)) file_path)
              :: events r'
              ++ match value r' with
                 | Raise (Exception e) => [Print (error_reading_file e)]
                 | _ => []
                 end).
Proof.
  split; [apply read_urls_filter|]. split; [|split].
  - intros u. rewrite read_urls_filter, filter_In, in_map_iff. split.
    + intros [(l & Hl & Hin) Hs]. exists l. auto.
    + intros (l & Hin & -> & Hs). split; [exists l; auto | assumption].
  - intros before l after ->.
    change (l :: after) with ([l] ++ after).
    now rewrite !read_urls_app, read_urls_one.
  - intros W E file_path output_file s H Hn. apply from_file_delegates; assumption.
Qed.

Lemma targets_of_source_file_witness :
  let E := scripted all_well in
  let s := fresh (disk urls_txt (Lines mixed)) [] in
  read_urls mixed = [url_a; url_b; url_a]
  /\ value (scrape_from_file E urls_txt dest s)
     = value (scrape_multiple_urls E [url_a; url_b; url_a] dest s).
Proof.
  split; [reflexivity|].
  pose proof (proj2 (proj2 (proj2 (targets_of_source_file mixed))) nat
                (scripted all_well) urls_txt dest
                (fresh (disk urls_txt (Lines mixed)) []) eq_refl) as H.
  exact (proj1 (H ltac:(discriminate))).
Defined.

(** ** [scrape_multiple_urls], step by step *)

Section MultipleUrls.

Variable W : Type.
Variable E : Engine W.
Variable urls : list str.
Variable output_file : str.
Variable s : State W.

(** The session is there and started: the result is that of the batch
    method. *)
Lemma multiple_batch_outcome h w1 w2 o w3 :
  construction E s = (Return h, w1) ->
  start E h w1 = (Return tt, w2) ->
  extract_and_save_clean_data_from_urls E h urls output_file w2 = (o, w3) ->
  value (scrape_multiple_urls E urls output_file s)
  = after_cleanup
      match o with
      | Return _ => Return true
      | Raise (Exception _) => Return false
      | Raise e => Raise e
      end (fst (stop E h w3)).
Proof.
  intros H H1 H2. unfold construction, after_cleanup in *. reduce.
  rewrite H; reduce. rewrite H1; reduce. rewrite H2; reduce.
  destruct o as [[]|[?| |?]]; cases E; reflexivity.
Qed.

(** [False] is returned only when the constructor, [start()] or the batch
    method raised an [Exception]. *)
Lemma multiple_failure_cause :
  value (scrape_multiple_urls E urls output_file s) = Return false ->
  (exists m w, construction E s = (Raise (Exception m), w))
  \/ (exists h w1 m w2,
        construction E s = (Return h, w1)
        /\ start E h w1 = (Raise (Exception m), w2))
  \/ (exists h w1 w2 m w3,
        construction E s = (Return h, w1)
        /\ start E h w1 = (Return tt, w2)
        /\ extract_and_save_clean_data_from_urls E h urls output_file w2
           = (Raise (Exception m), w3)).
Proof.
  unfold construction. reduce.
  destruct (AdvancedYouTubeExtractor E _ _ _) as [[h|[m| |c]] w1] eqn:Hc; reduce.
  - destruct (start E h w1) as [[[]|[m| |c]] w2] eqn:H1; reduce.
    + destruct (extract_and_save_clean_data_from_urls E h urls output_file w2)
        as [[[]|[m| |c]] w3] eqn:H2; reduce.
      * destruct (stop E h w3) as [[[]|e] w4]; reduce; discriminate.
      * intros _. right; right. now exists h, w1, w2, m, w3.
      * destruct (stop E h w3) as [[[]|e] w4]; reduce; discriminate.
      * destruct (stop E h w3) as [[[]|e] w4]; reduce; discriminate.
    + intros _. right; left. now exists h, w1, m, w2.
    + destruct (stop E h w2) as [[[]|e] w4]; reduce; discriminate.
    + destruct (stop E h w2) as [[[]|e] w4]; reduce; discriminate.
  - intros _. left. now exists m, w1.
  - destruct (extractor (self s)); reduce;
      [destruct (stop E _ _) as [[[]|e] w4]; reduce|]; discriminate.
  - destruct (extractor (self s)); reduce;
      [destruct (stop E _ _) as [[[]|e] w4]; reduce|]; discriminate.
Qed.

(** [True] is returned only when the session was constructed and started and
    the batch method returned. *)
Lemma multiple_success_cause :
  value (scrape_multiple_urls E urls output_file s) = Return true ->
  exists h w1 w2 w3,
    construction E s = (Return h, w1)
    /\ start E h w1 = (Return tt, w2)
    /\ extract_and_save_clean_data_from_urls E h urls output_file w2
       = (Return tt, w3)
    /\ starts (events (scrape_multiple_urls E urls output_file s)) = [h].
Proof.
  unfold construction. reduce.
  destruct (AdvancedYouTubeExtractor E _ _ _) as [[h|[m| |c]] w1] eqn:Hc; reduce.
  - destruct (start E h w1) as [[[]|[m| |c]] w2] eqn:H1; reduce.
    + destruct (extract_and_save_clean_data_from_urls E h urls output_file w2)
        as [[[]|[m| |c]] w3] eqn:H2; reduce;
        destruct (stop E h _) as [[[]|e] w4]; reduce; try discriminate.
      intros _. now exists h, w1, w2, w3.
    + destruct (stop E h w2) as [[[]|e] w4]; reduce; discriminate.
    + destruct (stop E h w2) as [[[]|e] w4]; reduce; discriminate.
    + destruct (stop E h w2) as [[[]|e] w4]; reduce; discriminate.
  - destruct (extractor (self s)); reduce;
      [destruct (stop E _ _) as [[[]|e] w4]; reduce|]; discriminate.
  - destruct (extractor (self s)); reduce;
      [destruct (stop E _ _) as [[[]|e] w4]; reduce|]; discriminate.
  - destruct (extractor (self s)); reduce;
      [destruct (stop E _ _) as [[[]|e] w4]; reduce|]; discriminate.
Qed.

End MultipleUrls.

(** ** The batch, as the spec describes it *)

Section BatchSpec.

Variable W : Type.
Variable E : Engine W.
Variable h : handle.

(** The loop appends to the records it was given. *)
Lemma extract_all_acc urls acc w :
  extract_all E h urls acc w
  = match extract_all E h urls [] w with
    | (Return rs, w') => (Return (acc ++ rs), w')
    | (Raise e, w') => (Raise e, w')
    end.
Proof.
  revert acc w. induction urls as [|url urls IH]; intros acc w; cbn [extract_all].
  - now rewrite app_nil_r.
  - destruct (extract_youtube_data E h url w) as [[data|[m| |c]] w1]; try reflexivity.
    + rewrite (IH (acc ++ [data])), (IH ([] ++ [data])).
      destruct (extract_all E h urls [] w1) as [[rs|e] w']; [|reflexivity].
      now rewrite <- app_assoc.
    + rewrite (IH (acc ++ [error_record m])), (IH ([] ++ [error_record m])).
      destruct (extract_all E h urls [] w1) as [[rs|e] w']; [|reflexivity].
      now rewrite <- app_assoc.
Qed.

(** The loop computes the ResultSet. *)
Lemma extract_all_result_set urls w rs w' :
  extract_all E h urls [] w = (Return rs, w') <-> result_set E h urls w rs w'.
Proof.
  split.
  - revert w rs. induction urls as [|url urls IH]; intros w rs; cbn [extract_all].
    + intros [= <- <-]. constructor.
    + destruct (extract_youtube_data E h url w) as [[data|[m| |c]] w1] eqn:Hx;
        try discriminate; rewrite extract_all_acc;
        destruct (extract_all E h urls [] w1) as [[rs1|e] w2] eqn:Hr;
        try discriminate; intros [= <- <-]; cbn [app];
        econstructor; eauto.
  - induction 1 as [|url urls w o w1 r rs w2 Hx Ho _ IH]; [reflexivity|].
    cbn [extract_all]. rewrite Hx.
    destruct o as [data|[m| |c]]; try discriminate Ho;
      injection Ho as <-; rewrite extract_all_acc, IH; reflexivity.
Qed.

Lemma result_set_length urls w rs w' :
  result_set E h urls w rs w' -> List.length rs = List.length urls.
Proof. induction 1; cbn [List.length]; congruence. Qed.

(** The [i]-th record is the outcome of an extraction of the [i]-th
    target. *)
Lemma result_set_nth urls w rs w' i url :
  result_set E h urls w rs w' ->
  nth_error urls i = Some url ->
  exists r o w1 w2,
    nth_error rs i = Some r
    /\ extract_youtube_data E h url w1 = (o, w2)
    /\ record_of o = Some r.
Proof.
  intros H. revert i. induction H as [|u urls w o w1 r rs w2 Hx Ho _ IH]; intros i.
  - destruct i; discriminate.
  - destruct i as [|i]; cbn [nth_error].
    + intros [= <-]. now exists r, o, w, w1.
    + apply IH.
Qed.

(** The loop leaves on an interrupt only: an [Exception] of an extraction
    does not come out of it. *)
Lemma extract_all_no_exception urls acc w m w' :
  extract_all E h urls acc w <> (Raise (Exception m), w').
Proof.
  revert acc w. induction urls as [|url urls IH]; intros acc w; cbn [extract_all].
  - discriminate.
  - destruct (extract_youtube_data E h url w) as [[data|[m'| |c]] w1];
      try apply IH; discriminate.
Qed.

(** When no extraction is interrupted, the batch runs to its end. *)
Lemma extract_all_completes urls w :
  (forall url w0, In url urls ->
                  record_of (fst (extract_youtube_data E h url w0)) <> None) ->
  exists rs w', extract_all E h urls [] w = (Return rs, w').
Proof.
  revert w. induction urls as [|url urls IH]; intros w Hok; cbn [extract_all].
  - now exists [], w.
  - pose proof (Hok url w (or_introl eq_refl)) as H0.
    destruct (extract_youtube_data E h url w) as [[data|[m| |c]] w1];
      cbn [fst record_of] in H0; try congruence;
      rewrite extract_all_acc;
      destruct (IH w1) as (rs & w' & ->); eauto;
      intros; apply Hok; now right.
Qed.

End BatchSpec.

(** C4.  The ResultSet of a completed batch has one record for each target,
    in the order of the targets: as many records as targets, the [i]-th
    record being the outcome of extracting the [i]-th target, whether a
    result or an error.  A [scrape_many] that returns [True] completed its
    batch and handed that ResultSet to the output writer. *)
Theorem one_record_per_target {W} (E : Engine W) (urls : list str) :
  (forall h w rs w',
      extract_all E h urls [] w = (Return rs, w') ->
      List.length rs = List.length urls
      /\ result_set E h urls w rs w'
      /\ (forall i url,
             nth_error urls i = Some url ->
             exists r o w1 w2,
               nth_error rs i = Some r
               /\ extract_youtube_data E h url w1 = (o, w2)
               /\ record_of o = Some r))
  /\ (forall output_file s,
         value (scrape_many E urls output_file s) = Return true ->
         exists h w rs w' w'',
           starts (events (scrape_many E urls output_file s)) = [h]
           /\ result_set E h urls w rs w'
           /\ List.length rs = List.length urls
           /\ save_clean_final_output E h rs output_file w' = (Return tt, w'')).
Proof.
  split.
  - intros h w rs w' H. apply extract_all_result_set in H.
    split; [eapply result_set_length; eauto|]. split; [assumption|].
    intros i url Hi. eapply result_set_nth; eauto.
  - intros output_file s H.
    destruct (multiple_success_cause (spec_engine E) urls output_file s H)
      as (h & w1 & w2 & w3 & _ & _ & Hb & Hs).
    cbn [spec_engine extract_and_save_clean_data_from_urls] in Hb.
    unfold extract_and_save_clean_data_from_urls_spec in Hb.
    destruct (extract_all E h urls [] w2) as [[rs|e] w'] eqn:Hx; [|discriminate].
    apply extract_all_result_set in Hx.
    exists h, w2, rs, w', w3. repeat split; try assumption.
    eapply result_set_length; eauto.
Qed.

Lemma one_record_per_target_witness :
  let E := scripted all_well in
  extract_all E 0 batch_abc [] 1
  = (Return [record_a; error_record (lit "timeout"); record_b], 1)
  /\ List.length [record_a; error_record (lit "timeout"); record_b]
     = List.length batch_abc
  /\ result_set E 0 batch_abc 1
       [record_a; error_record (lit "timeout"); record_b] 1.
Proof.
  split; [reflexivity|].
  destruct (proj1 (@one_record_per_target nat (scripted all_well) batch_abc)
              0 1 [record_a; error_record (lit "timeout"); record_b] 1 eq_refl)
    as (Hl & Hr & _).
  split; assumption.
Defined.

Section BatchChain.

Variable W : Type.
Variable E : Engine W.

(** The engine state a batch call ends in is the one its [stop()] leaves. *)
Lemma multiple_batch_state urls output_file s h w1 w2 o w3 :
  construction E s = (Return h, w1) ->
  start E h w1 = (Return tt, w2) ->
  extract_and_save_clean_data_from_urls E h urls output_file w2 = (o, w3) ->
  engine (after (scrape_multiple_urls E urls output_file s)) = snd (stop E h w3).
Proof.
  intros H H1 H2. unfold construction in *. reduce.
  rewrite H; reduce. rewrite H1; reduce. rewrite H2; reduce.
  destruct o as [[]|[?| |?]]; cases E; reflexivity.
Qed.

(** The ResultSet of a batch is determined by the targets and the state the
    batch starts in. *)
Lemma result_set_functional h urls w rs1 w1 rs2 w2 :
  result_set E h urls w rs1 w1 ->
  result_set E h urls w rs2 w2 ->
  rs1 = rs2 /\ w1 = w2.
Proof.
  intros H. revert rs2 w2.
  induction H as [|url urls w o wa r rs wb Hx Ho _ IH]; intros rs2 w2 H2.
  - inversion H2; subst. auto.
  - inversion H2 as [|url' urls' w' o' wa' r' rs' wb' Hx' Ho' Hr']; subst.
    rewrite Hx in Hx'. injection Hx' as <- <-.
    rewrite Ho in Ho'. injection Ho' as <-.
    destruct (IH _ _ Hr') as [<- <-]. auto.
Qed.

(** The [i]-th record is the outcome of extracting the [i]-th target in the
    state the first [i] extractions of the batch left. *)
Lemma result_set_nth_chain h urls w rs w' i url :
  result_set E h urls w rs w' ->
  nth_error urls i = Some url ->
  exists r o wi wi',
    nth_error rs i = Some r
    /\ result_set E h (firstn i urls) w (firstn i rs) wi
    /\ extract_youtube_data E h url wi = (o, wi')
    /\ record_of o = Some r.
Proof.
  intros H. revert i. induction H as [|u urls w o w1 r rs w2 Hx Ho _ IH]; intros i.
  - destruct i; discriminate.
  - destruct i as [|i]; cbn [nth_error firstn].
    + intros [= <-]. exists r, o, w, w1. repeat split; try assumption. constructor.
    + intros Hi. destruct (IH i Hi) as (r' & o' & wi & wi' & Hn & Hc & Hx' & Ho').
      exists r', o', wi, wi'. repeat split; try assumption.
      econstructor; eassumption.
Qed.

End BatchChain.

(** C3.  [scrape_many] returns [False] only when the session could not be
    constructed or started or the output writer raised on the ResultSet of
    the call.  When the session starts and no extraction is interrupted, the
    call builds the ResultSet of its targets, one record for each, in order:
    a target whose extraction fails has the error as its record, every other
    target has what its extraction returned, each extraction made in the
    state the ones before it left.  That ResultSet, and no other, is handed
    to the output writer, whose outcome is the result of the call whatever
    the extractions did: [True] when the writer and [stop()] return. *)
Theorem batch_fails_on_batch_faults_only {W} (E : Engine W) urls output_file s :
  let r := scrape_many E urls output_file s in
  (value r = Return false ->
   (exists m w, construction E s = (Raise (Exception m), w))
   \/ (exists h w1 m w2,
         construction E s = (Return h, w1)
         /\ start E h w1 = (Raise (Exception m), w2))
   \/ (exists h w1 w2 rs w3 m w4,
         construction E s = (Return h, w1)
         /\ start E h w1 = (Return tt, w2)
         /\ result_set E h urls w2 rs w3
         /\ save_clean_final_output E h rs output_file w3
            = (Raise (Exception m), w4)))
  /\ (forall h w1 w2,
         construction E s = (Return h, w1) ->
         start E h w1 = (Return tt, w2) ->
         (forall url w, In url urls ->
                        record_of (fst (extract_youtube_data E h url w)) <> None) ->
         exists rs w3,
           result_set E h urls w2 rs w3
           /\ (forall rs' w3', result_set E h urls w2 rs' w3' -> rs' = rs /\ w3' = w3)
           /\ List.length rs = List.length urls
           /\ (forall i url,
                  nth_error urls i = Some url ->
                  exists record o wi wi',
                    nth_error rs i = Some record
                    /\ result_set E h (firstn i urls) w2 (firstn i rs) wi
                    /\ extract_youtube_data E h url wi = (o, wi')
                    /\ match o with
                       | Return data => record = data
                       | Raise (Exception m) => record = error_record m
                       | Raise _ => False
                       end)
           /\ (forall o w4,
                  save_clean_final_output E h rs output_file w3 = (o, w4) ->
                  value r
                  = after_cleanup
                      match o with
                      | Return _ => Return true
                      | Raise (Exception _) => Return false
                      | Raise e => Raise e
                      end (fst (stop E h w4))
                  /\ engine (after r) = snd (stop E h w4))
           /\ (forall w4 w5,
                  save_clean_final_output E h rs output_file w3 = (Return tt, w4) ->
                  stop E h w4 = (Return tt, w5) ->
                  value r = Return true /\ engine (after r) = w5)).
Proof.
  intros r. subst r. split.
  - intros H.
    destruct (multiple_failure_cause (spec_engine E) urls output_file s H)
      as [(m & w & Hc)|[(h & w1 & m & w2 & Hc & Hs)
                       |(h & w1 & w2 & m & w3 & Hc & Hs & Hb)]].
    + left. now exists m, w.
    + right; left. now exists h, w1, m, w2.
    + right; right.
      cbn [spec_engine extract_and_save_clean_data_from_urls] in Hb.
      unfold extract_and_save_clean_data_from_urls_spec in Hb.
      destruct (extract_all E h urls [] w2) as [[rs|e] w'] eqn:Hx.
      * apply extract_all_result_set in Hx. exists h, w1, w2, rs, w', m, w3. auto.
      * injection Hb as -> ->. now apply extract_all_no_exception in Hx.
  - intros h w1 w2 Hc Hs Hok.
    destruct (extract_all_completes E h urls w2 Hok) as (rs & w3 & Hx).
    assert (Hr : result_set E h urls w2 rs w3) by now apply extract_all_result_set.
    assert (Hrun : forall o w4,
               save_clean_final_output E h rs output_file w3 = (o, w4) ->
               value (scrape_many E urls output_file s)
               = after_cleanup
                   match o with
                   | Return _ => Return true
                   | Raise (Exception _) => Return false
                   | Raise e => Raise e
                   end (fst (stop E h w4))
               /\ engine (after (scrape_many E urls output_file s))
                  = snd (stop E h w4)).
    { intros o w4 Hw.
      assert (Hb : extract_and_save_clean_data_from_urls (spec_engine E) h urls
                     output_file w2 = (o, w4)).
      { cbn [spec_engine extract_and_save_clean_data_from_urls].
        unfold extract_and_save_clean_data_from_urls_spec. now rewrite Hx. }
      unfold scrape_many. split.
      - exact (@multiple_batch_outcome W (spec_engine E) urls output_file s
                 h w1 w2 o w4 Hc Hs Hb).
      - exact (@multiple_batch_state W (spec_engine E) urls output_file s
                 h w1 w2 o w4 Hc Hs Hb). }
    exists rs, w3. split; [exact Hr|]. split; [|split; [|split; [|split]]].
    + intros rs' w3' Hr'. destruct (result_set_functional Hr Hr') as [-> ->]. auto.
    + eapply result_set_length; eauto.
    + intros i url Hi.
      destruct (result_set_nth_chain i Hr Hi)
        as (record & o & wi & wi' & Hn & Hch & Hxi & Ho).
      exists record, o, wi, wi'. repeat split; try assumption.
      destruct o as [data|[m| |c]]; cbn [record_of] in Ho; congruence.
    + exact Hrun.
    + intros w4 w5 Hw Hq. destruct (Hrun _ _ Hw) as [Hv He].
      rewrite Hv, He, Hq. split; reflexivity.
Qed.

Lemma batch_fails_on_batch_faults_only_witness :
  let E := scripted all_well in
  let s := fresh no_files [] in
  (construction E s = (Return 0, 1) /\ start E 0 1 = (Return tt, 1)
   /\ forall url w, In url batch_abc ->
                    record_of (fst (extract_youtube_data E 0 url w)) <> None)
  /\ result_set E 0 batch_abc 1 [record_a; error_record (lit "timeout"); record_b] 1
  /\ value (scrape_many E batch_abc dest s) = Return true
  /\ engine (after (scrape_many E batch_abc dest s)) = 1.
Proof.
  assert (Hok : forall url w, In url batch_abc ->
                  record_of (fst (extract_youtube_data (scripted all_well) 0 url w))
                  <> None)
    by (intros url w [<-|[<-|[<-|[]]]]; discriminate).
  split; [repeat split; exact Hok|].
  destruct (proj2 (@batch_fails_on_batch_faults_only nat (scripted all_well)
                     batch_abc dest (fresh no_files []))
              0 1 1 eq_refl eq_refl Hok) as (rs & w3 & Hr & Hu & _ & _ & _ & Ht).
  assert (Hr' : result_set (scripted all_well) 0 batch_abc 1
                  [record_a; error_record (lit "timeout"); record_b] 1)
    by (apply extract_all_result_set; reflexivity).
  destruct (Hu _ _ Hr') as [Hrs Hw]. subst rs w3.
  split; [exact Hr'|]. exact (Ht 1 1 eq_refl eq_refl).
Defined.

(** ** Exit status *)

Section ExitStatus.

Variable W : Type.
Variable E : Engine W.

(** For a command line that asks for a scrape, [main] runs it on a new
    interface and exits on its result. *)
Lemma main_of_requested args c s :
  requested E args = Some c ->
  value (main E args s)
  = match value (c (set_self (scraper_of args) s)) with
    | Return true => Raise (SystemExit 0)
    | Return false => Raise (SystemExit 1)
    | Raise (SystemExit code) => Raise (SystemExit code)
    | Raise _ => Raise (SystemExit 1)
    end.
Proof.
  unfold requested, main, run_scraper, scraper_of, new_scraper, sys_exit.
  destruct (arg_interactive args); [discriminate|].
  destruct (given (arg_url args));
    [|destruct (given (arg_urls args)); [|destruct (given (arg_file args))]];
    intros [= <-];
    unfold bind, prepend, raise, print, emit; cbn [value after events];
    match goal with
    | |- context [match ?run with _ => _ end] =>
        destruct run as [[[|]|[m| |code]] s' t]; reflexivity
    end.
Qed.

End ExitStatus.

(** C7, as amended.  A scrape that succeeds exits with status zero; a scrape
    that fails exits with status one; a scrape the user interrupts exits with
    status one as well, the status of a failure. *)
Theorem exit_status_of_scrape {W} (E : Engine W) args c s :
  requested E args = Some c ->
  let outcome := value (c (set_self (scraper_of args) s)) in
  let status := exit_status (value (main E args s)) in
  (outcome = Return true -> status = 0%Z)
  /\ (outcome = Return false -> status = 1%Z)
  /\ (outcome = Raise KeyboardInterrupt -> status = 1%Z)
  /\ (forall m, outcome = Raise (Exception m) -> status = 1%Z).
Proof.
  intros H outcome status. subst outcome status.
  rewrite (main_of_requested E args s H).
  repeat split; [intros -> ..|intros m ->]; reflexivity.
Qed.

(** C7, as stated, on one command line: a session that cannot start and a
    batch the user interrupts end the process with the same status. *)
Lemma interrupt_exits_like_failure :
  let failed := main (scripted start_fails) two_urls (fresh no_files []) in
  let stopped := main (scripted interrupted) two_urls (fresh no_files []) in
  value (scrape_multiple_urls (scripted start_fails) [url_a; url_b]
           (arg_output two_urls) (fresh no_files [])) = Return false
  /\ value (scrape_multiple_urls (scripted interrupted) [url_a; url_b]
             (arg_output two_urls) (fresh no_files [])) = Raise KeyboardInterrupt
  /\ exit_status (value failed) = 1%Z
  /\ exit_status (value stopped) = 1%Z
  /\ exit_status (value stopped) = exit_status (value failed).
Proof. vm_compute. repeat split. Qed.

Lemma exit_status_of_scrape_witness :
  let E := scripted all_well in
  let s := fresh no_files [] in
  let c := scrape_multiple_urls E [url_a; url_b] (arg_output two_urls) in
  requested E two_urls = Some c
  /\ value (c (set_self (scraper_of two_urls) s)) = Return true
  /\ exit_status (value (main E two_urls s)) = 0%Z.
Proof.
  split; [reflexivity|]. split; [reflexivity|].
  exact (proj1 (@exit_status_of_scrape nat (scripted all_well) two_urls _
                  (fresh no_files []) eq_refl) eq_refl).
Defined.

(** ** The interactive loop ends with the terminal *)

Section InteractiveLoop.

Variable W : Type.
Variable E : Engine W.

Lemma bind_returns A B (c : M W A) (k : A -> M W B) s b :
  value (bind c k s) = Return b ->
  exists a, value (c s) = Return a
            /\ value (k a (after (c s))) = Return b
            /\ after (bind c k s) = after (k a (after (c s))).
Proof.
  unfold bind, prepend. destruct (c s) as [[a|e] s' t]; cbn [value after];
    [|discriminate].
  destruct (k a s') as [v s'' t'] eqn:Hk; cbn [value after]. intros ->.
  exists a. rewrite Hk. auto.
Qed.

Lemma keeps_bind A B (c : M W A) (k : A -> M W B) :
  keeps_stdin c -> (forall a, keeps_stdin (k a)) -> keeps_stdin (bind c k).
Proof.
  intros Hc Hk s. specialize (Hc s). unfold bind, prepend.
  destruct (c s) as [[a|e] s' t]; cbn [after] in *; [|assumption].
  specialize (Hk a s'). destruct (k a s') as [v s'' t']; cbn [after] in *. lia.
Qed.

Lemma keeps_ret A (a : A) : keeps_stdin (ret (W := W) a).
Proof. intros s. apply Nat.le_refl. Qed.

Lemma keeps_print line : keeps_stdin (print (W := W) line).
Proof. intros s. apply Nat.le_refl. Qed.

Lemma keeps_input prompt : keeps_stdin (input (W := W) prompt).
Proof.
  intros s. unfold input.
  destruct (stdin s) as [|[l|] k] eqn:Hs; cbn; rewrite ?Hs; cbn; lia.
Qed.

Lemma input_consumes prompt s l :
  value (input (W := W) prompt s) = Return l ->
  List.length (stdin (after (input (W := W) prompt s))) < List.length (stdin s).
Proof.
  unfold input.
  destruct (stdin s) as [|[l'|] k] eqn:Hs; cbn; try discriminate. lia.
Qed.

Lemma keeps_scrape c : keeps_stdin (invoke E c).
Proof. intros s. destruct c; cases E; apply Nat.le_refl. Qed.

Lemma keeps_try_except A (c : M W A) (k : str -> M W A) :
  keeps_stdin c -> (forall e, keeps_stdin (k e)) -> keeps_stdin (try_except c k).
Proof.
  intros Hc Hk s. specialize (Hc s). unfold try_except, prepend.
  destruct (c s) as [[a|[m| |code]] s' t]; cbn [after] in *; try assumption.
  specialize (Hk m s'). destruct (k m s') as [v s'' t']; cbn [after] in *. lia.
Qed.

Lemma keeps_scrape_from_file file_path output_file :
  keeps_stdin (scrape_from_file E file_path output_file).
Proof.
  unfold scrape_from_file. apply keeps_try_except.
  - apply keeps_bind; [intros s; apply Nat.le_refl|]. intros found.
    destruct (negb found).
    + apply keeps_bind; [apply keeps_print|]. intros _. apply keeps_ret.
    + apply keeps_bind.
      * intros s. unfold readlines, ret, raise.
        destruct (files s file_path); apply Nat.le_refl.
      * intros lines. cbv zeta. destruct (read_urls lines).
        -- apply keeps_bind; [apply keeps_print|]. intros _. apply keeps_ret.
        -- apply keeps_bind; [apply keeps_print|]. intros _.
           apply (keeps_scrape (Multiple _ _)).
  - intros e. apply keeps_bind; [apply keeps_print|]. intros _. apply keeps_ret.
Qed.

(** What a choice asks for reads the terminal, it does not write to it. *)
Lemma keeps_dispatch choice : keeps_stdin (dispatch E choice).
Proof.
  unfold dispatch. cbv zeta.
  repeat match goal with
         | |- keeps_stdin (if ?b then _ else _) => destruct b
         | |- keeps_stdin (bind _ _) => apply keeps_bind; [|intros ?]
         | |- keeps_stdin (ret _) => apply keeps_ret
         | |- keeps_stdin (print _) => apply keeps_print
         | |- keeps_stdin (input _) => apply keeps_input
         | |- keeps_stdin (scrape_single_url _ _ _) =>
             apply (keeps_scrape (Single _ _))
         | |- keeps_stdin (scrape_multiple_urls _ _ _) =>
             apply (keeps_scrape (Multiple _ _))
         | |- keeps_stdin (scrape_from_file _ _ _) => apply keeps_scrape_from_file
         end.
Qed.

(** A turn that asks for another turn has read the terminal. *)
Lemma turn_consumes s :
  value (interactive_turn E s) = Return Continue ->
  List.length (stdin (after (interactive_turn E s))) < List.length (stdin s).
Proof.
  unfold interactive_turn. intros H.
  do 5 (apply bind_returns in H; destruct H as ([] & _ & H & ->);
        change (after (print _ ?x)) with x in * ).
  apply bind_returns in H. destruct H as (line & Hin & _ & ->).
  apply input_consumes in Hin.
  eapply Nat.le_lt_trans; [|exact Hin]. apply keeps_dispatch.
Qed.

(** The bound on the turns is never met: any two bounds above the length
    of the terminal's input give the same run. *)
Lemma interactive_loop_fuel n m s :
  List.length (stdin s) < n ->
  List.length (stdin s) < m ->
  interactive_loop E n s = interactive_loop E m s.
Proof.
  revert m s. induction n as [|n IH]; intros m s Hn Hm; [lia|].
  destruct m as [|m]; [lia|]. cbn [interactive_loop]. unfold bind.
  pose proof (turn_consumes s) as Hc.
  destruct (interactive_turn E s) as [[[|]|e] s' t]; cbn [value after] in Hc;
    try reflexivity.
  specialize (Hc eq_refl). rewrite (IH m s'); [reflexivity| |]; lia.
Qed.

End InteractiveLoop.

(** * Further properties of [main.py] *)

(** Unfolding of the further observations of a trace. *)
Ltac observe :=
  cbn [constructs batches phase_after use stops starts saves extracts] in *.

(** Case analysis along [scrape_from_file]: what is at the path, what targets
    the file has, then the engine calls. *)
Ltac file_cases E path :=
  reduce;
  let Hf := fresh "Hf" in
  destruct (files _ path) as [|?|?] eqn:Hf; reduce; rewrite ?Hf; reduce;
  try match goal with
      | |- context [read_urls ?ls] => destruct (read_urls ls) eqn:?; reduce
      end;
  repeat (next_case E; reduce).

(** ** One session for a call *)

Section OneSession.

Variable W : Type.
Variable E : Engine W.

Lemma construction_settings c s :
  constructs (events (invoke E c s))
  = [(headless (self s), enable_anti_detection (self s))].
Proof.
  destruct c; cases E; observe; reflexivity.
Qed.

(** X1.  A call of [scrape_single_url] or [scrape_multiple_urls] constructs
    one extractor, whatever happens in the call, and constructs it with the
    two settings of the interface, which the call leaves as they were. *)
Theorem one_construction_with_settings c s :
  constructs (events (invoke E c s))
  = [(headless (self s), enable_anti_detection (self s))]
  /\ constructions (events (invoke E c s)) = 1
  /\ headless (self (after (invoke E c s))) = headless (self s)
  /\ enable_anti_detection (self (after (invoke E c s)))
     = enable_anti_detection (self s).
Proof.
  destruct c; cases E; observe; repeat split.
Qed.

(** X2.  Once the session is started, [scrape_multiple_urls] hands the whole
    list of targets, as it got it (empty too), and the destination to the
    batch method in one call; and it returns [True] exactly when the
    constructor, [start()], the batch method and [stop()] all return. *)
Theorem batch_method_called_once urls output_file s :
  let r := scrape_multiple_urls E urls output_file s in
  (forall h w1 w2,
      construction E s = (Return h, w1) ->
      start E h w1 = (Return tt, w2) ->
      batches (events r) = [(h, urls, output_file)])
  /\ (value r = Return true <->
      exists h w1 w2 w3 w4,
        construction E s = (Return h, w1)
        /\ start E h w1 = (Return tt, w2)
        /\ extract_and_save_clean_data_from_urls E h urls output_file w2
           = (Return tt, w3)
        /\ stop E h w3 = (Return tt, w4)).
Proof.
  cbv zeta. split.
  - intros h w1 w2 Hc Hs. unfold construction in Hc. reduce.
    rewrite Hc; reduce. rewrite Hs; reduce. cases E; observe; reflexivity.
  - split.
    + cases E; intros Hv; try discriminate Hv. eauto 10.
    + intros (h & w1 & w2 & w3 & w4 & Hc & Hs & Hb & Hq).
      unfold construction in Hc. reduce.
      rewrite Hc; reduce. rewrite Hs; reduce. rewrite Hb; reduce.
      rewrite Hq; reduce. reflexivity.
Qed.

(** X3.  An [Exception] that comes out of [scrape_single_url] or
    [scrape_multiple_urls] was raised by the [stop()] of the cleanup clause:
    every other [Exception] of the call is caught and turned into [False]. *)
Theorem escaped_exception_is_of_stop c s m :
  value (invoke E c s) = Raise (Exception m) ->
  exists h w w',
    stop E h w = (Raise (Exception m), w')
    /\ In h (stops (events (invoke E c s))).
Proof.
  destruct c; cases E; intros Hv; try discriminate Hv;
    injection Hv as <-; do 3 eexists; (split; [eassumption|]);
    observe; now left.
Qed.

(** X4.  Within a call the extractor is used in order, on every path: it is
    constructed and started before anything else is asked of it; extraction,
    saving and the batch method are called on the started extractor only;
    nothing is called after [stop()]; and the call ends with its session
    over, a started extractor never left unstopped.  The one path on which
    [stop()] is not called is that of a constructor that raises on an
    interface without an extractor, where nothing was started either. *)
Theorem extractor_used_in_order c s :
  phase_after Idle (events (invoke E c s))
  = Some match fst (construction E s), extractor (self s) with
         | Raise _, None => Idle
         | _, _ => Over
         end
  /\ (stops (events (invoke E c s)) = [] <->
      (exists e, fst (construction E s) = Raise e) /\ extractor (self s) = None).
Proof.
  split.
  - destruct c; cases E; observe; rewrite ?Nat.eqb_refl; observe;
      rewrite ?Nat.eqb_refl; try reflexivity; congruence.
  - split.
    + destruct c; cases E; observe; intros Hs; try discriminate Hs;
        (split; [eauto|congruence]).
    + intros ((e & He) & Hx). unfold construction in He.
      destruct c; reduce;
        destruct (AdvancedYouTubeExtractor E _ _ _) as [[?|[?| |?]] ?];
        cbn [fst] in He; try discriminate He;
        cases E; observe; congruence.
Qed.

End OneSession.

Lemma extractor_used_in_order_witness :
  let E := scripted no_browser in
  let s := fresh no_files [] in
  ((exists e, fst (construction E s) = Raise e) /\ extractor (self s) = None)
  /\ stops (events (invoke E (Multiple [url_a] dest) s)) = [].
Proof.
  assert (H : (exists e, fst (construction (scripted no_browser) (fresh no_files []))
                         = Raise e)
              /\ extractor (self (fresh no_files [])) = None)
    by (split; [eexists|]; reflexivity).
  split; [exact H|].
  exact (proj2 (proj2 (@extractor_used_in_order nat (scripted no_browser)
                         (Multiple [url_a] dest) (fresh no_files []))) H).
Defined.

Lemma batch_method_called_once_witness :
  let E := scripted all_well in
  let r := scrape_multiple_urls E [] dest (fresh no_files []) in
  batches (events r) = [(0, [], dest)] /\ value r = Return true.
Proof.
  pose proof (@batch_method_called_once nat (scripted all_well) [] dest
                (fresh no_files [])) as [Hb Hv].
  split.
  - exact (Hb 0 1 1 eq_refl eq_refl).
  - apply Hv. exists 0, 1, 1, 1, 1. repeat split.
Defined.

Lemma escaped_exception_is_of_stop_witness :
  let E := scripted stop_fails in
  let c := Single url_a dest in
  value (invoke E c (fresh no_files [])) = Raise (Exception (lit "browser gone"))
  /\ exists h w w',
       stop E h w = (Raise (Exception (lit "browser gone")), w')
       /\ In h (stops (events (invoke E c (fresh no_files [])))).
Proof.
  split; [reflexivity|].
  apply (@escaped_exception_is_of_stop nat (scripted stop_fails) (Single url_a dest)
           (fresh no_files []) (lit "browser gone")).
  reflexivity.
Defined.

(** ** More on [scrape_from_file] *)

Section FromFile.

Variable W : Type.
Variable E : Engine W.
Variables file_path output_file : str.
Variable s : State W.

Lemma from_file_unreadable msg :
  files s file_path = Unreadable msg ->
  value (scrape_from_file E file_path output_file s) = Return false
  /\ events (scrape_from_file E file_path output_file s)
     = [Print (error_reading_file msg)].
Proof.
  intros H. reduce. rewrite H. reduce. rewrite H. reduce. split; reflexivity.
Qed.

(** X5.  A file that is there and cannot be opened or decoded:
    [scrape_from_file] returns [False], prints the error of the reading, and
    that is all it does: no extractor is constructed or started, and the
    interface and the engine are as they were. *)
Theorem unreadable_file_fails_without_session msg :
  files s file_path = Unreadable msg ->
  let r := scrape_from_file E file_path output_file s in
  value r = Return false
  /\ events r = [Print (error_reading_file msg)]
  /\ constructions (events r) = 0
  /\ starts (events r) = []
  /\ after r = s.
Proof.
  intros H. cbv zeta. reduce. rewrite H. reduce. rewrite H. reduce.
  repeat split.
Qed.

(** X6.  No [Exception] comes out of [scrape_from_file]: what reading the
    file raises, and what [stop()] raises at the end of the batch, is caught,
    printed as an error of reading the file, and turned into [False]. *)
Theorem scrape_from_file_catches_exceptions :
  (forall m, value (scrape_from_file E file_path output_file s)
             <> Raise (Exception m))
  /\ (forall lines m,
         files s file_path = Lines lines ->
         read_urls lines <> [] ->
         value (scrape_multiple_urls E (read_urls lines) output_file s)
         = Raise (Exception m) ->
         value (scrape_from_file E file_path output_file s) = Return false
         /\ In (Print (error_reading_file m))
              (events (scrape_from_file E file_path output_file s))).
Proof.
  split.
  - intros m. unfold scrape_from_file, try_except, prepend.
    match goal with
    | |- context [match ?body s with _ => _ end] =>
        destruct (body s) as [[b|[m'| |code]] s' t]
    end; cbn; discriminate.
  - intros lines m Hf Hn Hv.
    destruct (from_file_delegates E file_path output_file s Hf Hn) as [H1 H2].
    rewrite H1, H2, Hv. split; [reflexivity|].
    right. apply in_or_app. right. now left.
Qed.

(** What a session does in [scrape_from_file] is what it does in the
    [scrape_multiple_urls] the file leads to: the file adds printed lines
    only. *)
Lemma from_file_session :
  (constructs (events (scrape_from_file E file_path output_file s)) = []
   /\ starts (events (scrape_from_file E file_path output_file s)) = []
   /\ stops (events (scrape_from_file E file_path output_file s)) = [])
  \/ exists urls,
       let r := scrape_from_file E file_path output_file s in
       let r' := scrape_multiple_urls E urls output_file s in
       constructs (events r) = constructs (events r')
       /\ starts (events r) = starts (events r')
       /\ stops (events r) = stops (events r').
Proof.
  destruct (files s file_path) as [|msg|lines] eqn:Hf.
  - left. destruct (from_file_absent E file_path output_file s Hf) as (_ & -> & _).
    repeat split.
  - left.
    destruct (from_file_unreadable Hf) as (_ & ->).
    repeat split.
  - destruct (read_urls lines) as [|u us] eqn:Hu.
    + left.
      destruct (from_file_no_urls E file_path output_file s Hf Hu) as (_ & -> & _).
      repeat split.
    + right. exists (read_urls lines).
      destruct (from_file_delegates E file_path output_file s Hf) as [_ He];
        [rewrite Hu; discriminate|].
      cbv zeta. rewrite He. cbn [constructs starts stops].
      assert (Hc : forall t u, constructs (t ++ u) = constructs t ++ constructs u).
      { induction t as [|[] t IH]; intros; cbn [app constructs]; rewrite ?IH; auto. }
      assert (Ha : forall t u, starts (t ++ u) = starts t ++ starts u).
      { induction t as [|[] t IH]; intros; cbn [app starts]; rewrite ?IH; auto. }
      assert (Ho : forall t u, stops (t ++ u) = stops t ++ stops u).
      { induction t as [|[] t IH]; intros; cbn [app stops]; rewrite ?IH; auto. }
      rewrite Hc, Ha, Ho.
      destruct (value (scrape_multiple_urls E (read_urls lines) output_file s))
        as [b|[m| |code]]; cbn [constructs starts stops]; rewrite !app_nil_r;
        repeat split.
Qed.

End FromFile.

Lemma unreadable_file_fails_without_session_witness :
  let s := fresh (disk urls_txt (Unreadable (lit "Permission denied"))) [] in
  let r := scrape_from_file (scripted all_well) urls_txt dest s in
  value r = Return false
  /\ events r = [Print (error_reading_file (lit "Permission denied"))]
  /\ constructions (events r) = 0
  /\ starts (events r) = []
  /\ after r = s.
Proof.
  apply (@unreadable_file_fails_without_session nat (scripted all_well) urls_txt dest
           (fresh (disk urls_txt (Unreadable (lit "Permission denied"))) [])
           (lit "Permission denied")).
  reflexivity.
Defined.

Lemma scrape_from_file_catches_exceptions_witness :
  let E := scripted stop_fails in
  let s := fresh (disk urls_txt (Lines mixed)) [] in
  value (scrape_multiple_urls E (read_urls mixed) dest s)
  = Raise (Exception (lit "browser gone"))
  /\ value (scrape_from_file E urls_txt dest s) = Return false
  /\ In (Print (error_reading_file (lit "browser gone")))
       (events (scrape_from_file E urls_txt dest s)).
Proof.
  split; [reflexivity|].
  apply (proj2 (@scrape_from_file_catches_exceptions nat (scripted stop_fails)
                  urls_txt dest (fresh (disk urls_txt (Lines mixed)) []))
           mixed (lit "browser gone")).
  - reflexivity.
  - discriminate.
  - reflexivity.
Defined.

(** ** Calls on a new interface *)

Section NewInterface.

Variable W : Type.
Variable E : Engine W.

Lemma fresh_session c s :
  extractor (self s) = None ->
  stops (events (invoke E c s)) = starts (events (invoke E c s))
  /\ List.length (starts (events (invoke E c s))) <= 1.
Proof.
  intros Hx. destruct c; cases E; observe; cbn [List.length];
    try (split; [reflexivity|lia]); congruence.
Qed.

Lemma closed_invoke c s :
  extractor (self s) = None -> closed (self s) (events (invoke E c s)).
Proof.
  intros Hx. unfold closed.
  rewrite (construction_settings E c s).
  destruct (fresh_session c s Hx) as (Hs & Hl). auto.
Qed.

Lemma closed_from_file file_path output_file s :
  extractor (self s) = None ->
  closed (self s) (events (scrape_from_file E file_path output_file s)).
Proof.
  intros Hx. unfold closed.
  destruct (from_file_session E file_path output_file s)
    as [(-> & -> & ->)|(us & Hc & Ha & Ho)].
  - cbn [List.length]. repeat split; [constructor|lia].
  - cbv zeta in Hc, Ha, Ho. rewrite Hc, Ha, Ho.
    exact (closed_invoke (Multiple us output_file) s Hx).
Qed.

(** X7.  [quick_scrape], [quick_batch_scrape] and [quick_file_scrape] work
    on an interface of their own: every extractor they construct has
    anti-detection enabled and the [headless] they were given; an extractor on
    which [start()] was called is stopped, once, and nothing else is stopped;
    at most one session is opened. *)
Theorem quick_functions_close_their_session url urls file_path output hl s :
  closed (__init__ hl true) (events (quick_scrape E url output hl s))
  /\ closed (__init__ hl true) (events (quick_batch_scrape E urls output hl s))
  /\ closed (__init__ hl true) (events (quick_file_scrape E file_path output hl s)).
Proof.
  assert (He : forall A (c : M W A) o,
             events (with_scraper o c s) = events (c (set_self o s))).
  { intros A c o. unfold with_scraper. now destruct (c (set_self o s)). }
  unfold quick_scrape, quick_batch_scrape, quick_file_scrape. rewrite !He.
  split; [|split].
  - exact (closed_invoke (Single url output) (set_self (__init__ hl true) s) eq_refl).
  - exact (closed_invoke (Multiple urls output) (set_self (__init__ hl true) s)
             eq_refl).
  - exact (closed_from_file file_path output (set_self (__init__ hl true) s) eq_refl).
Qed.

End NewInterface.

(** ** Trimming and splitting *)

Section Trimming.

Lemma lstrip_head s :
  match lstrip s with [] => True | c :: _ => isspace c = false end.
Proof.
  induction s as [|c s IH]; cbn [lstrip]; [exact I|].
  destruct (isspace c) eqn:Hc; [exact IH|exact Hc].
Qed.

Lemma lstrip_idem s : lstrip (lstrip s) = lstrip s.
Proof.
  pose proof (lstrip_head s) as H. destruct (lstrip s) as [|c t]; [reflexivity|].
  cbn [lstrip]. now rewrite H.
Qed.

Lemma lstrip_app a b :
  lstrip (a ++ b) = match lstrip a with [] => lstrip b | _ :: _ => lstrip a ++ b end.
Proof.
  induction a as [|c a IH]; cbn [lstrip app]; [reflexivity|].
  destruct (isspace c); [exact IH|reflexivity].
Qed.

Lemma lstrip_In x s : In x (lstrip s) -> In x s.
Proof.
  induction s as [|c s IH]; cbn [lstrip]; [auto|].
  destruct (isspace c); [right; auto|auto].
Qed.

Lemma rstrip_cons c s :
  rstrip (c :: s)
  = match rstrip s with
    | [] => if isspace c then [] else [c]
    | _ :: _ => c :: rstrip s
    end.
Proof.
  unfold rstrip. cbn [rev]. rewrite lstrip_app.
  destruct (lstrip (rev s)) as [|d l] eqn:Hl.
  - cbn [rev lstrip]. destruct (isspace c); reflexivity.
  - rewrite rev_app_distr. cbn [rev app].
    destruct (rev l ++ [d]) eqn:Hr; [|reflexivity].
    now destruct (rev l).
Qed.

Lemma rstrip_idem s : rstrip (rstrip s) = rstrip s.
Proof. unfold rstrip. now rewrite rev_involutive, lstrip_idem. Qed.

Lemma rstrip_In x s : In x (rstrip s) -> In x s.
Proof.
  unfold rstrip. intros H. apply in_rev in H. apply lstrip_In in H.
  now apply in_rev.
Qed.

(** A trimmed string does not start with white space... *)
Lemma strip_lstrip s : lstrip (strip s) = strip s.
Proof.
  unfold strip. pose proof (lstrip_head s) as H.
  destruct (lstrip s) as [|c t]; [reflexivity|].
  rewrite rstrip_cons. rewrite H.
  destruct (rstrip t); cbn [lstrip]; now rewrite H.
Qed.

(** ... nor end with it. *)
Lemma strip_rstrip s : rstrip (strip s) = strip s.
Proof. unfold strip. apply rstrip_idem. Qed.

Lemma strip_idem s : strip (strip s) = strip s.
Proof.
  unfold strip at 1. rewrite strip_lstrip. apply strip_rstrip.
Qed.

Lemma strip_In x s : In x (strip s) -> In x s.
Proof. unfold strip. intros H. now apply lstrip_In, rstrip_In. Qed.

Lemma split_aux_app sep cur a b :
  split_aux sep cur (a ++ sep :: b) = split_aux sep cur a ++ split_aux sep [] b.
Proof.
  revert cur. induction a as [|c a IH]; intros cur; cbn [app split_aux].
  - now rewrite N.eqb_refl.
  - destruct (N.eqb c sep); cbn [app]; now rewrite IH.
Qed.

Lemma split_aux_free sep cur s u :
  ~ In sep cur -> In u (split_aux sep cur s) -> ~ In sep u.
Proof.
  revert cur. induction s as [|c s IH]; intros cur Hc; cbn [split_aux].
  - intros [<-|[]] Hin. apply Hc. now apply in_rev.
  - destruct (N.eqb c sep) eqn:Hs.
    + intros [<-|Hin].
      * intros Hin. apply Hc. now apply in_rev.
      * eapply IH; [|exact Hin]. intros [].
    + apply IH. intros [->|Hin]; [|auto]. now rewrite N.eqb_refl in Hs.
Qed.

(** X8.  The targets of a comma-separated argument ([--urls] and choice 2 of
    the interactive mode): none is empty, none contains a comma, none starts
    or ends with white space; and the targets of two texts joined by a comma
    are the targets of the first followed by those of the second.  Nothing
    asks a target to start with [http]. *)
Theorem targets_of_comma_separated text :
  (forall u, In u (split_urls text) ->
             u <> [] /\ ~ In comma u /\ strip u = u)
  /\ (forall a b, text = a ++ comma :: b ->
                  split_urls text = split_urls a ++ split_urls b)
  /\ ((forall c, In c text -> c <> comma) ->
      PyStr.truthy (strip text) = true ->
      split_urls text = [strip text]).
Proof.
  unfold split_urls. split; [|split].
  - intros u Hu. apply in_map_iff in Hu. destruct Hu as (v & <- & Hv).
    apply filter_In in Hv. destruct Hv as [Hv Ht].
    split; [|split].
    + intros H. now rewrite H in Ht.
    + intros Hc. apply strip_In in Hc. revert Hc.
      eapply split_aux_free; [|exact Hv]. intros [].
    + apply strip_idem.
  - intros a b ->. unfold split. now rewrite split_aux_app, filter_app, map_app.
  - intros Hfree Ht.
    assert (Hs : forall cur, split_aux comma cur text = [rev cur ++ text]).
    { clear Ht. induction text as [|c t IH]; intros cur; cbn [split_aux].
      - now rewrite app_nil_r.
      - destruct (N.eqb c comma) eqn:Hc.
        + apply N.eqb_eq in Hc. now destruct (Hfree c (or_introl eq_refl)).
        + rewrite IH; [|intros; apply Hfree; now right].
          cbn [rev]. now rewrite <- app_assoc. }
    unfold split. rewrite Hs. cbn [rev app filter]. rewrite Ht. reflexivity.
Qed.

(** X9.  The targets read from a file are trimmed and start with [http]:
    reading them again, as lines, gives the same targets. *)
Theorem read_urls_idempotent lines :
  (forall u, In u (read_urls lines) ->
             strip u = u /\ startswith u (lit "http") = true)
  /\ read_urls (read_urls lines) = read_urls lines.
Proof.
  assert (H : forall u, In u (read_urls lines) ->
                        strip u = u /\ startswith u (lit "http") = true).
  { intros u Hu. rewrite read_urls_filter in Hu. apply filter_In in Hu.
    destruct Hu as [Hu Hs]. apply in_map_iff in Hu. destruct Hu as (l & <- & _).
    split; [apply strip_idem|exact Hs]. }
  split; [exact H|].
  induction (read_urls lines) as [|u us IH]; [reflexivity|].
  change (u :: us) with ([u] ++ us). rewrite read_urls_app, read_urls_one.
  destruct (H u (or_introl eq_refl)) as [-> ->].
  rewrite IH; [reflexivity|]. intros v Hv. apply H. now right.
Qed.

End Trimming.

Lemma targets_of_comma_separated_witness :
  let text := lit " https://a, ,ftp://c ,," in
  text = lit " https://a" ++ comma :: lit " ,ftp://c ,,"
  /\ split_urls text = [url_a; lit "ftp://c"]
  /\ split_urls text = split_urls (lit " https://a") ++ split_urls (lit " ,ftp://c ,,").
Proof.
  split; [reflexivity|]. split; [reflexivity|].
  exact (proj1 (proj2 (targets_of_comma_separated (lit " https://a, ,ftp://c ,,")))
           (lit " https://a") (lit " ,ftp://c ,,") eq_refl).
Defined.

Lemma read_urls_idempotent_witness :
  In url_b (read_urls mixed)
  /\ strip url_b = url_b /\ startswith url_b (lit "http") = true.
Proof.
  assert (H : In url_b (read_urls mixed)) by (right; left; reflexivity).
  split; [exact H|].
  exact (proj1 (read_urls_idempotent mixed) url_b H).
Defined.

(** ** The interactive session *)

Section InteractiveSession.

Variable W : Type.
Variable E : Engine W.

Lemma bind_run A B (c : M W A) (k : A -> M W B) s :
  bind c k s
  = match c s with
    | {| value := Return a; after := s'; events := t |} => prepend t (k a s')
    | {| value := Raise e; after := s'; events := t |} =>
        {| value := Raise e; after := s'; events := t |}
    end.
Proof. reflexivity. Qed.

Lemma continues_ret : continues (ret (W := W) Continue).
Proof. intros s b [= <-]. reflexivity. Qed.

Lemma continues_bind A (c : M W A) (k : A -> M W loop_step) :
  (forall a, continues (k a)) -> continues (bind c k).
Proof.
  intros Hk s b. rewrite bind_run. destruct (c s) as [[a|e] s' t]; [|discriminate].
  specialize (Hk a s' b). unfold prepend. destruct (k a s') as [v s'' t'].
  exact Hk.
Qed.

(** The step that ends the loop is that of choice 4, and all it does is say
    goodbye. *)
Lemma dispatch_break choice s :
  value (dispatch E choice s) = Return Break ->
  choice = lit "4" /\ events (dispatch E choice s) = [Print goodbye].
Proof.
  unfold dispatch.
  destruct (PyStr.eqb choice (lit "1"));
    [|destruct (PyStr.eqb choice (lit "2"));
      [|destruct (PyStr.eqb choice (lit "3"));
        [|destruct (PyStr.eqb choice (lit "4")) eqn:H4]]].
  1-3: intros H; exfalso; revert H;
       match goal with
       | |- value (?c ?x) = _ -> _ =>
           assert (Hc : continues c);
           [|intros H; discriminate (Hc x Break H)]
       end;
       apply continues_bind; intros line; cbv zeta;
       destruct (PyStr.truthy (strip line)); [|apply continues_ret];
       apply continues_bind; intros; apply continues_bind; intros;
       apply continues_ret.
  - intros _. apply eqb_eq in H4. split; [assumption|reflexivity].
  - intros H; exfalso; revert H.
    match goal with
    | |- value (?c ?x) = _ -> _ =>
        assert (Hc : continues c);
        [|intros H; discriminate (Hc x Break H)]
    end.
    apply continues_bind; intros; apply continues_ret.
Qed.

Lemma bind_returns_events A B (c : M W A) (k : A -> M W B) s b :
  value (bind c k s) = Return b ->
  exists a, value (c s) = Return a
            /\ value (k a (after (c s))) = Return b
            /\ events (bind c k s) = events (c s) ++ events (k a (after (c s))).
Proof.
  rewrite bind_run. destruct (c s) as [[a|e] s' t]; cbn [value after events];
    [|discriminate].
  unfold prepend. destruct (k a s') as [v s'' t'] eqn:Hk; cbn [value events].
  intros ->. exists a. rewrite Hk. auto.
Qed.

Lemma turn_break s :
  value (interactive_turn E s) = Return Break ->
  exists t, events (interactive_turn E s) = t ++ [Print goodbye].
Proof.
  unfold interactive_turn. intros H.
  do 5 (apply bind_returns_events in H; destruct H as ([] & _ & H & ->)).
  apply bind_returns_events in H. destruct H as (line & _ & H & ->).
  apply dispatch_break in H. destruct H as [_ ->].
  eexists. rewrite !app_assoc. reflexivity.
Qed.

Lemma loop_ends_with_goodbye n s :
  value (interactive_loop E n s) = Return tt ->
  exists t, events (interactive_loop E n s) = t ++ [Print goodbye].
Proof.
  revert s. induction n as [|n IH]; intros s; cbn [interactive_loop];
    [discriminate|].
  rewrite bind_run. pose proof (turn_break s) as Hb.
  destruct (interactive_turn E s) as [[[|]|e] s' t]; cbn [value events] in Hb;
    [| |discriminate].
  - specialize (IH s'). unfold prepend.
    destruct (interactive_loop E n s') as [v s'' t']. cbn [value events] in *.
    intros Hv. destruct (IH Hv) as (u & ->). exists (t ++ u).
    now rewrite app_assoc.
  - intros _. destruct (Hb eq_refl) as (u & ->). unfold prepend, ret.
    cbn [events]. exists u. now rewrite app_nil_r.
Qed.

(** X10.  [interactive_mode] returns only through choice 4: when it returns,
    the last thing it did was to print the goodbye line.  A failed scrape, an
    empty answer or an invalid choice does not end it; the end of the input
    and an interrupt end it with an exception. *)
Theorem interactive_mode_returns_after_goodbye s :
  value (interactive_mode E s) = Return tt ->
  exists t, events (interactive_mode E s) = t ++ [Print goodbye].
Proof.
  unfold interactive_mode. intros H.
  do 2 (apply bind_returns_events in H; destruct H as ([] & _ & H & ->)).
  cbv beta in *. apply loop_ends_with_goodbye in H. destruct H as (u & ->).
  eexists. rewrite !app_assoc. reflexivity.
Qed.

End InteractiveSession.

Lemma interactive_mode_returns_after_goodbye_witness :
  let r := interactive_mode (scripted all_well) (fresh no_files one_scrape_then_exit) in
  value r = Return tt
  /\ stops (events r) = [0]
  /\ exists t, events r = t ++ [Print goodbye].
Proof.
  split; [reflexivity|]. split; [reflexivity|].
  apply (@interactive_mode_returns_after_goodbye nat (scripted all_well)
           (fresh no_files one_scrape_then_exit)).
  reflexivity.
Defined.

(** ** Scrapes asked for in the interactive session *)

Section InteractiveScrape.

Variable W : Type.
Variable E : Engine W.

Ltac menu :=
  unfold bind, input, prepend, ret, set_stdin;
  cbn [value after events stdin self engine files].

(** X11.  A choice that asks for a scrape reads its input and trims it.  An
    empty input: nothing is scraped, no second question is asked, and the
    session goes on.  Otherwise the output file is asked for, the default
    name of the choice taken when the answer is empty, and the scrape runs;
    whether it returns [True] or [False], the session goes on; only an
    exception of the scrape ends it. *)
Theorem interactive_scrape choice prompt default launch s :
  asked E choice = Some (prompt, default, launch) ->
  (forall u k,
      stdin s = Line u :: k ->
      PyStr.truthy (strip u) = false ->
      value (dispatch E choice s) = Return Continue
      /\ events (dispatch E choice s) = [Input prompt]
      /\ after (dispatch E choice s) = set_stdin k s)
  /\ (forall u o k,
         stdin s = Line u :: Line o :: k ->
         PyStr.truthy (strip u) = true ->
         let r := launch (strip u) (or_default (strip o) default) (set_stdin k s) in
         value (dispatch E choice s)
         = match value r with
           | Return _ => Return Continue
           | Raise e => Raise e
           end
         /\ events (dispatch E choice s)
            = Input prompt :: Input output_prompt :: events r
         /\ after (dispatch E choice s) = after r).
Proof.
  unfold asked, dispatch.
  destruct (PyStr.eqb choice (lit "1"));
    [|destruct (PyStr.eqb choice (lit "2"));
      [|destruct (PyStr.eqb choice (lit "3")); [|discriminate]]];
    intros [= <- <- <-]; (split; [intros u k Hk Hu|intros u o k Hk Hu]).
  all: cbv zeta; menu; rewrite Hk; menu; rewrite Hu; menu.
  1,3,5: repeat split.
  all: match goal with
       | |- context [scrape_single_url E ?a ?b ?st] =>
           destruct (scrape_single_url E a b st) as [[r|e] s' t]
       | |- context [scrape_multiple_urls E ?a ?b ?st] =>
           destruct (scrape_multiple_urls E a b st) as [[r|e] s' t]
       | |- context [scrape_from_file E ?a ?b ?st] =>
           destruct (scrape_from_file E a b st) as [[r|e] s' t]
       end; repeat split; cbn [events app]; now rewrite ?app_nil_r.
Qed.

End InteractiveScrape.

Lemma interactive_scrape_witness :
  let E := scripted all_well in
  let s := fresh no_files [Line (lit " https://b "); Line []; Line (lit "4")] in
  let r := scrape_single_url E url_b (lit "youtube_data.json")
             (fresh no_files [Line (lit "4")]) in
  value r = Return false
  /\ value (dispatch E (lit "1") s) = Return Continue
  /\ events (dispatch E (lit "1") s)
     = Input (lit "Enter YouTube URL: ") :: Input output_prompt :: events r.
Proof.
  split; [reflexivity|].
  destruct (proj2 (@interactive_scrape nat (scripted all_well) (lit "1")
                     (lit "Enter YouTube URL: ") (lit "youtube_data.json")
                     (scrape_single_url (scripted all_well))
                     (fresh no_files [Line (lit " https://b "); Line []; Line (lit "4")])
                     eq_refl)
              (lit " https://b ") [] [Line (lit "4")] eq_refl eq_refl)
    as (Hv & He & _).
  split; [exact Hv|exact He].
Defined.

(** ** More on [main] *)

Section MainProgram.

Variable W : Type.
Variable E : Engine W.

Lemma constructs_app t u : constructs (t ++ u) = constructs t ++ constructs u.
Proof. induction t as [|[] t IH]; cbn [app constructs]; rewrite ?IH; auto. Qed.

Lemma starts_app t u : starts (t ++ u) = starts t ++ starts u.
Proof. induction t as [|[] t IH]; cbn [app starts]; rewrite ?IH; auto. Qed.

Lemma stops_of_app t u : stops (t ++ u) = stops t ++ stops u.
Proof. induction t as [|[] t IH]; cbn [app stops]; rewrite ?IH; auto. Qed.

(** What [main] adds to the events of the scrape it was asked for is a
    printed line, if anything. *)
Lemma main_events_of_requested args c s :
  requested E args = Some c ->
  exists line,
    events (main E args s) = events (c (set_self (scraper_of args) s)) ++ line
    /\ constructs line = [] /\ starts line = [] /\ stops line = [].
Proof.
  unfold requested, main, run_scraper, scraper_of, new_scraper, sys_exit.
  destruct (arg_interactive args); [discriminate|].
  destruct (given (arg_url args));
    [|destruct (given (arg_urls args)); [|destruct (given (arg_file args))]];
    intros [= <-];
    unfold bind, prepend, raise, print, emit; cbn [value after events];
    match goal with
    | |- context [match ?run with _ => _ end] =>
        destruct run as [[[|]|[m| |code]] s' t]
    end; cbn [events app]; rewrite ?app_nil_r;
    first [ exists []; rewrite ?app_nil_r; split; [reflexivity|repeat split]
          | eexists; split; [reflexivity|repeat split] ].
Qed.


(** X13.  The scrape of a command line runs on a new interface with the
    settings of the command line: the extractor is constructed with
    [headless] unless [--show-browser] is given and with anti-detection unless
    [--no-anti-detection] is given; the extractor [start()] was called on is
    stopped once before the process exits, and no other is. *)
Theorem main_closes_its_session args c s :
  requested E args = Some c ->
  closed (__init__ (arg_headless args && negb (arg_show_browser args))
                   (negb (arg_no_anti_detection args)))
         (events (main E args s)).
Proof.
  intros H.
  destruct (main_events_of_requested args s H) as (line & -> & Hc & Ha & Ho).
  unfold closed. rewrite constructs_app, starts_app, stops_of_app, Hc, Ha, Ho.
  rewrite !app_nil_r.
  change (__init__ (arg_headless args && negb (arg_show_browser args))
                   (negb (arg_no_anti_detection args)))
    with (self (set_self (scraper_of args) s)).
  revert H. unfold requested.
  destruct (arg_interactive args); [discriminate|].
  destruct (given (arg_url args));
    [|destruct (given (arg_urls args)); [|destruct (given (arg_file args))]];
    intros [= <-].
  - exact (closed_invoke E (Single _ _) (set_self (scraper_of args) s) eq_refl).
  - exact (closed_invoke E (Multiple _ _) (set_self (scraper_of args) s) eq_refl).
  - exact (closed_from_file E _ _ (set_self (scraper_of args) s) eq_refl).
Qed.



End MainProgram.


Lemma main_closes_its_session_witness :
  let E := scripted start_fails in
  requested E two_urls
  = Some (scrape_multiple_urls E [url_a; url_b] (arg_output two_urls))
  /\ stops (events (main E two_urls (fresh no_files []))) = [0]
  /\ closed (__init__ true true) (events (main E two_urls (fresh no_files []))).
Proof.
  split; [reflexivity|]. split; [reflexivity|].
  exact (@main_closes_its_session nat (scripted start_fails) two_urls _
           (fresh no_files []) eq_refl).
Defined.


(** X15.  The interactive loop ends with the input: a turn that asks for
    another turn has read the terminal, so a terminal with [n] pending
    entries allows at most [n + 1] turns, and [interactive_mode], which
    allows that many, runs as the unbounded loop does: a larger bound gives
    the same run. *)
Theorem interactive_loop_ends_with_input {W} (E : Engine W) n s :
  List.length (stdin s) < n ->
  interactive_loop E n s = interactive_loop E (S (List.length (stdin s))) s.
Proof.
  intros H. apply interactive_loop_fuel; [assumption|]. apply Nat.lt_succ_diag_r.
Qed.

Lemma interactive_loop_ends_with_input_witness :
  let s := fresh no_files one_scrape_then_exit in
  List.length (stdin s) < 9
  /\ interactive_loop (scripted all_well) 9 s = interactive_loop (scripted all_well) 5 s.
Proof.
  assert (H9 : List.length (stdin (fresh no_files one_scrape_then_exit)) < 9)
    by (cbn; lia).
  split; [exact H9|].
  exact (@interactive_loop_ends_with_input nat (scripted all_well) 9
           (fresh no_files one_scrape_then_exit) H9).
Defined.

(** ** More on the outcome of a scrape *)

Section Outcomes.

Variable W : Type.
Variable E : Engine W.

(** X16.  [scrape_from_file] returns [True] exactly when there is a readable
    file at the path, the file has at least one target, and
    [scrape_multiple_urls] on its targets returns [True]. *)
Theorem scrape_from_file_succeeds_iff file_path output_file s :
  value (scrape_from_file E file_path output_file s) = Return true <->
  exists lines,
    files s file_path = Lines lines
    /\ read_urls lines <> []
    /\ value (scrape_multiple_urls E (read_urls lines) output_file s) = Return true.
Proof.
  split.
  - destruct (files s file_path) as [|msg|lines] eqn:Hf.
    + destruct (from_file_absent E file_path output_file s Hf) as (-> & _).
      discriminate.
    + destruct (from_file_unreadable E file_path output_file s Hf) as (-> & _).
      discriminate.
    + destruct (read_urls lines) as [|u us] eqn:Hu.
      * destruct (from_file_no_urls E file_path output_file s Hf Hu) as (-> & _).
        discriminate.
      * assert (Hn : read_urls lines <> []) by (rewrite Hu; discriminate).
        destruct (from_file_delegates E file_path output_file s Hf Hn) as [-> _].
        intros Hv. exists lines. rewrite Hu in *. repeat split; try assumption.
        destruct (value (scrape_multiple_urls E (u :: us) output_file s))
          as [[|]|[m| |code]]; try discriminate; reflexivity.
  - intros (lines & Hf & Hn & Hv).
    destruct (from_file_delegates E file_path output_file s Hf Hn) as [-> _].
    now rewrite Hv.
Qed.


End Outcomes.

(** An [error] field that [str()] cannot render: the formatting of the
    failure line raises, the handler prints its line and the call returns
    [False]; the record is not written. *)
Example unprintable_error_is_caught :
  let r := scrape_single_url (scripted unprintable) url_a dest (fresh no_files []) in
  value r = Return false
  /\ saves (events r) = []
  /\ In (Print ([cross_mark] ++ lit " Error scraping URL: " ++ int_str_limit_message))
       (events r).
Proof. vm_compute. repeat split. right; right; right; right. now left. Qed.

Lemma scrape_from_file_succeeds_iff_witness :
  let E := scripted all_well in
  let s := fresh (disk urls_txt (Lines mixed)) [] in
  (exists lines,
      files s urls_txt = Lines lines
      /\ read_urls lines <> []
      /\ value (scrape_multiple_urls E (read_urls lines) dest s) = Return true)
  /\ value (scrape_from_file E urls_txt dest s) = Return true.
Proof.
  assert (H : exists lines,
             files (fresh (disk urls_txt (Lines mixed)) []) urls_txt = Lines lines
             /\ read_urls lines <> []
             /\ value (scrape_multiple_urls (scripted all_well) (read_urls lines) dest
                         (fresh (disk urls_txt (Lines mixed)) [])) = Return true).
  { exists mixed. split; [reflexivity|]. split; [discriminate|reflexivity]. }
  split; [exact H|].
  exact (proj2 (@scrape_from_file_succeeds_iff nat (scripted all_well) urls_txt dest
                  (fresh (disk urls_txt (Lines mixed)) [])) H).
Defined.


(** ** A comma-separated argument without targets *)

Section BlankArgument.

Lemma lstrip_blank s : (forall c, In c s -> isspace c = true) -> lstrip s = [].
Proof.
  induction s as [|c s IH]; intros H; cbn [lstrip]; [reflexivity|].
  rewrite (H c (or_introl eq_refl)). apply IH. intros; apply H; now right.
Qed.

Lemma strip_blank s : (forall c, In c s -> isspace c = true) -> strip s = [].
Proof. intros H. unfold strip. now rewrite (lstrip_blank s H). Qed.

Lemma split_aux_chars sep cur s u c :
  In u (split_aux sep cur s) -> In c u -> In c cur \/ In c s.
Proof.
  revert cur. induction s as [|d s IH]; intros cur; cbn [split_aux].
  - intros [<-|[]] Hc. left. now apply in_rev.
  - destruct (N.eqb d sep).
    + intros [<-|Hu] Hc.
      * left. now apply in_rev.
      * destruct (IH [] Hu Hc) as [[]|H]. right. now right.
    + intros Hu Hc. destruct (IH (d :: cur) Hu Hc) as [[<-|H]|H].
      * right. now left.
      * now left.
      * right. now right.
Qed.

Lemma filter_none A (f : A -> bool) l :
  (forall x, In x l -> f x = false) -> filter f l = [].
Proof.
  induction l as [|x l IH]; intros H; cbn [filter]; [reflexivity|].
  rewrite (H x (or_introl eq_refl)). apply IH. intros; apply H; now right.
Qed.

Lemma split_urls_blank text :
  (forall c, In c text -> c = comma \/ isspace c = true) ->
  split_urls text = [].
Proof.
  intros H. unfold split_urls. rewrite filter_none; [reflexivity|].
  intros u Hu. rewrite strip_blank; [reflexivity|].
  intros c Hc. destruct (split_aux_chars _ _ _ _ c Hu Hc) as [[]|Hin].
  destruct (H c Hin) as [->|Hs]; [|exact Hs].
  exfalso. revert Hc. eapply split_aux_free; [|exact Hu]. intros [].
Qed.

Variable W : Type.
Variable E : Engine W.

(** X18.  A [--urls] argument made of commas and white space only has no
    target, and [main] does not stop there: [scrape_multiple_urls] is called
    on the empty list and constructs an extractor for it (where a file
    without targets fails before any session). *)
Theorem blank_urls_argument_opens_a_session args text s :
  arg_interactive args = false ->
  given (arg_url args) = false ->
  arg_urls args = Some text ->
  text <> [] ->
  (forall c, In c text -> c = comma \/ isspace c = true) ->
  split_urls text = []
  /\ requested E args = Some (scrape_multiple_urls E [] (arg_output args))
  /\ constructs (events (main E args s))
     = [(arg_headless args && negb (arg_show_browser args),
         negb (arg_no_anti_detection args))].
Proof.
  intros Hi Hu Ht Hn Hb.
  pose proof (split_urls_blank text Hb) as Hs.
  assert (Hr : requested E args = Some (scrape_multiple_urls E [] (arg_output args))).
  { unfold requested. rewrite Hi, Hu, Ht. cbn [given the]. rewrite Hs.
    destruct text; [congruence|reflexivity]. }
  split; [exact Hs|]. split; [exact Hr|].
  destruct (main_events_of_requested E args s Hr) as (line & -> & Hc & _).
  rewrite constructs_app, Hc, app_nil_r.
  exact (construction_settings E (Multiple [] (arg_output args))
           (set_self (scraper_of args) s)).
Qed.

End BlankArgument.

Lemma blank_urls_argument_opens_a_session_witness :
  let args :=
    {| arg_url := None; arg_urls := Some (lit " , ,"); arg_file := None;
       arg_interactive := false; arg_output := dest; arg_headless := true;
       arg_show_browser := true; arg_no_anti_detection := false |} in
  split_urls (lit " , ,") = []
  /\ constructs (events (main (scripted all_well) args (fresh no_files [])))
     = [(false, true)].
Proof.
  pose proof (@blank_urls_argument_opens_a_session nat (scripted all_well)
                {| arg_url := None; arg_urls := Some (lit " , ,"); arg_file := None;
                   arg_interactive := false; arg_output := dest; arg_headless := true;
                   arg_show_browser := true; arg_no_anti_detection := false |}
                (lit " , ,") (fresh no_files []) eq_refl eq_refl eq_refl) as H.
  destruct H as (Hs & _ & Hc).
  - discriminate.
  - intros c Hc. vm_compute in Hc.
    destruct Hc as [<-|[<-|[<-|[<-|[]]]]]; vm_compute; auto.
  - split; [exact Hs|exact Hc].
Defined.
